(** * Draining of a reservoir through a tube: the solvers and the simulators

    A shallow embedding of the numerical core of the repository:

    - [ProperFluidSim]  : [proper_fluid_sim.py], the friction/velocity solver
      [calculate_velocity_and_friction] and the time-marching simulator
      [simulate_drain_time];
    - [IterativeDarcy]  : [reynolds_numbers_w_iterative_darcy.py], the solver
      [iterative_darcy_reynolds], which raises when it does not converge;
    - [DischargeModel]  : [discharge_model.py], the simplified model
      [drain_time].

    Python's [float] and numpy's [float64] are IEEE-754 binary64 numbers, and
    so are Rocq's primitive floats: sums, products, quotients, square roots
    and comparisons below are the operations the program performs, bit for
    bit.  Arithmetic follows numpy's scalars, which the values of the loops
    are (they come out of [np.sqrt]): dividing by zero gives an infinity or a
    NaN, the square root of a negative number is a NaN, nothing is raised.
    (Python's own floats raise [ZeroDivisionError] instead; the divisors that
    can be Python floats are constants that are not zero, the floored Reynolds
    number, and the denominator of the velocity, which is positive when the
    friction factor is positive and the tube length at least zero.)
    The two functions of the C library the program calls, [np.log10] and the
    general power [x ** y], are not IEEE operations: they are taken as
    parameters ([libm]), and every statement holds for all of them.

    A [while] loop is run for a bounded number of turns ([fuel]), and says
    whether it has returned or is still looping: no bound is part of the
    program. *)

From Stdlib Require Import Floats ZArith List Bool String Lia.
Import ListNotations.

Set Warnings "-inexact-float".

Open Scope float_scope.

(** ** Python and numpy *)

Module Py.

(** What the program takes from the C library. *)
Record libm : Type := Libm {
  log10 : float -> float;          (* np.log10 *)
  power : float -> float -> float  (* x ** y, y not the literal 2 *)
}.

(** A C library that answers NaN: it stands for the library in the runs shown
    as examples, which never call it (they stay laminar). *)
Definition no_libm : libm := Libm (fun _ => nan) (fun _ _ => nan).

(** [np.pi] *)
Definition pi : float := 3.141592653589793.

(** [x ** 2]: the square, rounded once (what the C library's [pow] gives at
    exponent 2 for the numbers squared here). *)
Definition square (x : float) : float := x * x.

(** [x > y] *)
Definition gt (x y : float) : bool := y <? x.

(** [range(n)] runs [n] times, and not at all when [n] is negative. *)
Definition range (n : Z) : nat := Z.to_nat n.

End Py.

(** How a [for ... in range(n)] loop with a [break] is left. *)
Variant loop_exit : Type :=
  | Break       (* the convergence test succeeded *)
  | Exhausted.  (* the range ran out *)

(** What a function that may raise gives back. *)
Variant result (A : Type) : Type :=
  | Ok (a : A)
  | RuntimeError (msg : string).
Arguments Ok {A} a.
Arguments RuntimeError {A} msg.

(** A [while] loop run for a bounded number of iterations: it has returned, or
    it is still looping in the state shown. *)
Variant progress (A S : Type) : Type :=
  | Returned (a : A)
  | StillLooping (s : S).
Arguments Returned {A S} a.
Arguments StillLooping {A S} s.

(** ** proper_fluid_sim.py *)

Module ProperFluidSim.

Definition G : float := 9.81.
Definition RHO : float := 1000.
Definition MU : float := 0.001.
Definition D_TUBE : float := 0.00794.
Definition A_TUBE : float := Py.pi * Py.square (D_TUBE / 2).
Definition LENGTH_TANK : float := 0.32.
Definition WIDTH_TANK : float := 0.26.
Definition A_TANK : float := LENGTH_TANK * WIDTH_TANK.
Definition EPSILON : float := 0.0000015.
Definition K_ENTRANCE : float := 0.45.
Definition K_EXIT : float := 0.
Definition H_INITIAL : float := 0.10.
Definition H_FINAL : float := 0.02.
Definition DT : float := 0.01.

(** The defaults of [calculate_velocity_and_friction]. *)
Definition default_tol : float := 1e-6.
Definition default_max_iterations : Z := 100.

(** The floor of the Reynolds number and the laminar threshold. *)
Definition RE_FLOOR : float := 1e-6.
Definition RE_LAMINAR : float := 2300.

Section WithLibm.
Variable m : Py.libm.

Definition colebrook (Re d f : float) : float :=
  Py.power m (-2.0 * Py.log10 m (EPSILON / (3.7 * d) + 2.51 / (Re * sqrt f))) (-2).

(** The right-hand side of the two assignments to [v]. *)
Definition velocity (h L f : float) : float :=
  sqrt (2 * G * h / (1 + (f * L / D_TUBE) + K_ENTRANCE + K_EXIT)).

(** [Re = RHO * v * D_TUBE / MU], then the floor. *)
Definition reynolds (v : float) : float :=
  let Re := RHO * v * D_TUBE / MU in
  if Re <? RE_FLOOR then RE_FLOOR else Re.

(** [new_f], from the Reynolds number and the current [f]. *)
Definition new_friction (Re f : float) : float :=
  if Re <? RE_LAMINAR then 64 / Re else colebrook Re D_TUBE f.

(** The [for] loop, entered with [n] iterations left and the current [f], [v]. *)
Fixpoint friction_loop (n : nat) (h L tol f v : float) : loop_exit * (float * float) :=
  match n with
  | O => (Exhausted, (v, f))
  | S n' =>
      let Re := reynolds v in
      let new_f := new_friction Re f in
      if abs (new_f - f) <? tol then (Break, (v, f))
      else
        let f := new_f in
        let v := velocity h L f in
        friction_loop n' h L tol f v
  end.

(** The function with the way its loop was left. *)
Definition solve (h L tol : float) (max_iterations : Z) : loop_exit * (float * float) :=
  let f := 0.02 in
  let v := velocity h L f in
  friction_loop (Py.range max_iterations) h L tol f v.

(** [calculate_velocity_and_friction(h, L, tol, max_iterations)]: [(v, f)]. *)
Definition calculate_velocity_and_friction (h L tol : float) (max_iterations : Z)
  : float * float :=
  snd (solve h L tol max_iterations).

(** The variables of [simulate_drain_time]. *)
Record drain_state : Type := DrainState {
  ds_h : float;
  ds_total_time : float;
  ds_heights : list float;
  ds_times : list float
}.

(** One turn of the [while] loop. *)
Definition drain_body (L : float) (st : drain_state) : drain_state :=
  let '(v, f) := calculate_velocity_and_friction (ds_h st) L default_tol default_max_iterations in
  let dh := (A_TUBE / A_TANK) * v * DT in
  let h := ds_h st - dh in
  let total_time := ds_total_time st + DT in
  DrainState h total_time (ds_heights st ++ [h]) (ds_times st ++ [total_time]).

(** [while h > H_FINAL: ...], for at most [fuel] turns. *)
Fixpoint drain_loop (fuel : nat) (L : float) (st : drain_state)
  : progress (float * list float * list float) drain_state :=
  if Py.gt (ds_h st) H_FINAL then
    match fuel with
    | O => StillLooping st
    | S fuel' => drain_loop fuel' L (drain_body L st)
    end
  else Returned (ds_total_time st, ds_times st, ds_heights st).

Definition drain_init : drain_state := DrainState H_INITIAL 0 [] [].

(** [simulate_drain_time(L)]: [(total_time, times, heights)]. *)
Definition simulate_drain_time (fuel : nat) (L : float)
  : progress (float * list float * list float) drain_state :=
  drain_loop fuel L drain_init.

End WithLibm.

End ProperFluidSim.

(** ** reynolds_numbers_w_iterative_darcy.py *)

Module IterativeDarcy.

Definition g : float := 9.81.

Definition not_converged : string := "Darcy friction factor did not converge".

Section WithLibm.
Variable m : Py.libm.

(** [f_new], from the Reynolds number. *)
Definition f_update (epsilon D Re : float) : float :=
  if Re <? 2000 then 64 / Re
  else Py.power m (-1.8 * Py.log10 m ((epsilon / D) / 3.7 + 6.9 / Re)) (-2).

(** The [for] loop with [n] iterations left, in numpy's arithmetic, where a
    division by zero gives an infinity or a NaN. Where the source divides one
    of Python's own floats by another that is zero it raises
    [ZeroDivisionError] instead, an outcome this function does not have: so
    by [D] in [f * L / D] and by [1 + f * L / D + K] in the first iteration,
    where [f] is the literal 0.02, and by [D] in [epsilon / D]. From the
    second iteration on [f] is a numpy scalar, as [v] and [Re] always are. *)
Fixpoint darcy_loop (n : nat) (h L epsilon D K rho mu tol f : float)
  : result (float * float) :=
  match n with
  | O => RuntimeError not_converged
  | S n' =>
      let v := sqrt (2 * g * h / (1 + f * L / D + K)) in
      let Re := (rho * v * D) / mu in
      let f_new := f_update epsilon D Re in
      if abs (f_new - f) <? tol then Ok (Re, f_new)
      else darcy_loop n' h L epsilon D K rho mu tol f_new
  end.

(** [iterative_darcy_reynolds(h, L, epsilon, D, K, rho, mu, max_iter, tol)]:
    [(Re, f)], or the error. *)
Definition iterative_darcy_reynolds
  (h L epsilon D K rho mu : float) (max_iter : Z) (tol : float)
  : result (float * float) :=
  darcy_loop (Py.range max_iter) h L epsilon D K rho mu tol 0.02.

End WithLibm.

End IterativeDarcy.

(** ** discharge_model.py *)

Module DischargeModel.

Definition g : float := 9.81.
Definition rho : float := 1000.
Definition mu : float := 0.001.
Definition diameter : float := 7.94 / 1000.
Definition area : float := Py.pi * Py.square (diameter / 2).
Definition H : float := 0.08.

Definition reynolds_number (v d mu : float) : float := (v * d) / mu.

Section WithLibm.
Variable m : Py.libm.

Definition friction_factor (Re : float) : float :=
  if Re <? 2000 then 64 / Re
  else if Re <? 4000 then 0.3164 * Py.power m Re (-0.25)
  else 0.184 * Py.power m Re (-0.2).

(** The variables of one turn of the loop of [drain_time], in order. *)
Definition bernoulli_velocity (h : float) : float := sqrt (2 * g * h).

Definition head_loss (L h : float) : float :=
  let v := bernoulli_velocity h in
  let Re := reynolds_number v diameter mu in
  let f := friction_factor Re in
  f * (L / diameter) * (Py.square v / (2 * g)).

(** What [np.sqrt] is applied to for [v_actual]. *)
Definition v_actual_radicand (L h : float) : float := 2 * g * (h - head_loss L h).

Definition v_actual (L h : float) : float := sqrt (v_actual_radicand L h).

Definition dt : float := 0.01.

Definition drain_body (L : float) (st : float * float) : float * float :=
  let '(h, time) := st in
  let dh := - (v_actual L h * area * dt) / (Py.pi * Py.square 0.5) in
  (h + dh, time + dt).

(** [while h > 0.04: ...], for at most [fuel] turns, on [(h, time)]. *)
Fixpoint drain_loop (fuel : nat) (L : float) (st : float * float)
  : progress float (float * float) :=
  if Py.gt (fst st) 0.04 then
    match fuel with
    | O => StillLooping st
    | S fuel' => drain_loop fuel' L (drain_body L st)
    end
  else Returned (snd st).

(** [drain_time(L)] *)
Definition drain_time (fuel : nat) (L : float) : progress float (float * float) :=
  drain_loop fuel L (H, 0).

End WithLibm.

End DischargeModel.

(** ** The recurrence of the specification

    Forward Euler on the height, in the words of the specification: from
    [height = initialHeight] and [time = 0], while [height > finalHeight],
    [height] loses [(tubeCrossSection / tankCrossSection) * velocity * timeStep]
    with the solver's velocity at the current height, [time] gains [timeStep],
    and [(time, height)] is appended to the trajectory. *)

Module Euler.
Import ProperFluidSim.

Section WithLibm.
Variable m : Py.libm.

(** The velocity the solver returns at height [h]. *)
Definition solver_velocity (h L : float) : float :=
  fst (calculate_velocity_and_friction m h L default_tol default_max_iterations).

Definition delta_h (h L : float) : float :=
  (A_TUBE / A_TANK) * solver_velocity h L * DT.

(** The height and the time after [k] steps. *)
Fixpoint height (L : float) (k : nat) : float :=
  match k with
  | O => H_INITIAL
  | S k' => height L k' - delta_h (height L k') L
  end.

Fixpoint time (k : nat) : float :=
  match k with
  | O => 0
  | S k' => time k' + DT
  end.

(** The samples appended by the first [n] steps. *)
Definition trajectory (L : float) (n : nat) : list (float * float) :=
  map (fun k => (time k, height L k)) (seq 1 n).

(** The loop goes on after [k] steps. *)
Definition looping (L : float) (k : nat) : bool := Py.gt (height L k) H_FINAL.

(** The first step count, up to [fuel], at which the loop stops. *)
Definition stop_step (L : float) (fuel : nat) : option nat :=
  find (fun k => negb (looping L k)) (seq 0 (S fuel)).

(** The variables of the simulator after [k] steps. *)
Definition state_at (L : float) (k : nat) : drain_state :=
  DrainState (height L k) (time k)
    (map snd (trajectory L k)) (map fst (trajectory L k)).

(** The run, seen for [fuel] steps at most. *)
Definition run (fuel : nat) (L : float)
  : progress (float * list float * list float) drain_state :=
  match stop_step L fuel with
  | Some n => Returned (time n, map fst (trajectory L n), map snd (trajectory L n))
  | None => StillLooping (state_at L fuel)
  end.

End WithLibm.

(** The heights a run has recorded so far. *)
Definition recorded_heights
  (r : progress (float * list float * list float) drain_state) : list float :=
  match r with
  | Returned (_, _, heights) => heights
  | StillLooping st => ds_heights st
  end.

(** Each height is at most the one before it, from [h0] on. *)
Fixpoint non_increasing (h0 : float) (hs : list float) : Prop :=
  match hs with
  | [] => True
  | h :: hs' => (h <=? h0) = true /\ non_increasing h hs'
  end.

End Euler.

(** ** Rounding to binary64, as [SpecFloat] defines it *)

Module Rounding.
Open Scope Z_scope.

Abbreviation fexp64 := (fexp prec emax).

(** After [k] one-bit shifts of [m0 >= 0]: the quotient is left, and a flag is
    raised only when a bit was lost. *)
Definition shr_inv (m0 : Z) (k : Z) (mrs : shr_record) : Prop :=
  shr_m mrs = m0 / 2 ^ k /\
  (orb (shr_r mrs) (shr_s mrs) = true -> m0 mod 2 ^ k <> 0).

(** What rounding gives from the rounded mantissa [mr] at exponent [e]. *)
Inductive rounded (s : bool) (e mr : Z) : spec_float -> Prop :=
  | rounded_zero : mr = 0 -> rounded s e mr (S754_zero s)
  | rounded_finite q :
      mr = Zpos q -> mr < 2 ^ 53 -> e <= 971 -> rounded s e mr (S754_finite s q e)
  | rounded_carry q :
      mr = 2 ^ 53 -> Zpos q = 2 ^ 52 -> e + 1 <= 971 ->
      rounded s e mr (S754_finite s q (e + 1))
  | rounded_overflow :
      0 < mr -> (mr < 2 ^ 53 /\ 971 < e) \/ (mr = 2 ^ 53 /\ 971 < e + 1) ->
      rounded s e mr (S754_infinity s).

(** A zero, a finite number or an infinity of sign [s]. *)
Variant signed (s : bool) : spec_float -> Prop :=
  | signed_zero : signed s (S754_zero s)
  | signed_finite m e : signed s (S754_finite s m e)
  | signed_infinity : signed s (S754_infinity s).

(** A positive finite number: what the constants of the program are. *)
Definition positive_finite (c : float) : Prop :=
  exists m e, Prim2SF c = S754_finite false m e.

End Rounding.

(** ** reynolds_numbers.py *)

Module ReynoldsNumbers.

Definition rho : float := 1000.
Definition mu : float := 1e-3.
Definition g : float := 9.81.
Definition D : float := 0.00794.

(** [calculate_reynolds(h, L, f)], with [h] a numpy scalar as the script
    passes it (a Python float [h] would raise where [1 + f * L / D] is zero). *)
Definition calculate_reynolds (h L f : float) : float :=
  let v :=
    if f =? 0 then sqrt (2 * g * h)
    else sqrt (2 * g * h / (1 + f * L / D)) in
  (rho * v * D) / mu.

(** The defaults [L=0] and [f=0]. *)
Definition default_L : float := 0.
Definition default_f : float := 0.

(** The loop of the script: one pair [(L, Re_values)] appended per length, the
    friction factor left at its default. *)
Definition results (lengths heights : list float) : list (float * list float) :=
  fold_left
    (fun results L =>
       let Re_values := map (fun h => calculate_reynolds h L default_f) heights in
       results ++ [(L, Re_values)])
    lengths [].

End ReynoldsNumbers.

(** ** reynolds_numbers_w_iterative_darcy.py: the search of the script *)

Module DarcySearch.

Definition rho : float := 1000.
Definition mu : float := 1e-3.
Definition D : float := 0.00794.
Definition epsilon : float := 0.0015.
Definition K : float := 1.5.

(** The defaults of [iterative_darcy_reynolds]. *)
Definition default_rho : float := 1000.
Definition default_mu : float := 1e-3.
Definition default_max_iter : Z := 100.
Definition default_tol : float := 1e-6.

(** A row of [results_full_search]; [None] is Python's. *)
Definition row : Type := float * float * option float * option float.

Section WithLibm.
Variable m : Py.libm.

(** The call the script makes. *)
Definition search_call (h L : float) : result (float * float) :=
  IterativeDarcy.iterative_darcy_reynolds m h L epsilon D K
    default_rho default_mu default_max_iter default_tol.

(** The body of the inner loop: [try] the call, [except RuntimeError]. *)
Definition search_step (results : list row) (L h : float) : list row :=
  match search_call h L with
  | Ok (Re, f) => results ++ [(h, L, Some Re, Some f)]
  | RuntimeError _ => results ++ [(h, L, None, None)]
  end.

(** What the search records for a pair. *)
Definition recorded (L h : float) : row :=
  match search_call h L with
  | Ok (Re, f) => (h, L, Some Re, Some f)
  | RuntimeError _ => (h, L, None, None)
  end.

(** [for L in lengths: for h in heights: ...] *)
Definition full_search (lengths heights : list float) : list row :=
  fold_left
    (fun results L => fold_left (fun results h => search_step results L h) heights results)
    lengths [].

End WithLibm.

End DarcySearch.

(** ** The iterates of [iterative_darcy_reynolds] *)

Module DarcyIterates.

Section WithInputs.
Variable m : Py.libm.
Variables h L epsilon D K rho mu tol : float.

(** The Reynolds number an iteration computes from the friction factor [f]. *)
Definition reynolds_of (f : float) : float :=
  (rho * sqrt (2 * IterativeDarcy.g * h / (1 + f * L / D + K)) * D) / mu.

(** The friction factor at the start of iteration [k]. *)
Fixpoint friction (k : nat) : float :=
  match k with
  | O => 0.02
  | S k' => IterativeDarcy.f_update m epsilon D (reynolds_of (friction k'))
  end.

(** Iteration [k] passes the convergence test. *)
Definition converges_at (k : nat) : bool :=
  abs (friction (S k) - friction k) <? tol.

End WithInputs.

End DarcyIterates.

(** ** discharge_model.py: the sweep of the script *)

Module DischargeScript.

(** [times = [drain_time(L) for L in tube_lengths]], each call seen for at
    most [fuel] turns of its loop. *)
Definition times (m : Py.libm) (fuel : nat) (tube_lengths : list float)
  : list (progress float (float * float)) :=
  map (DischargeModel.drain_time m fuel) tube_lengths.

End DischargeScript.

(** ** Magnitudes of binary64 numbers *)

Module Magnitude.
Open Scope Z_scope.

(** The infinity of sign [s], or a finite number of sign [s] whose exponent is
    at least [k]: for a normal number, one of magnitude [2 ^ (k + 52)] at
    least. *)
Definition at_least (s : bool) (k : Z) (x : spec_float) : Prop :=
  x = S754_infinity s \/ exists m e, x = S754_finite s m e /\ k <= e.

End Magnitude.

(** * Facts about binary64 arithmetic

    From the specification of the primitive floats ([FloatAxioms], [SpecFloat]):
    rounding to nearest does not cross a number of the format, so taking away
    a number that is at least zero does not increase a number, and products of
    numbers that are at least zero are at least zero. *)

Module Binary64.
Import Rounding.
Local Open Scope Z_scope.

(** ** Digits *)

Lemma digits2_bounds (p : positive) :
  2 ^ (Zpos (digits2_pos p) - 1) <= Zpos p < 2 ^ Zpos (digits2_pos p).
Proof.
  induction p as [p IH | p IH | ]; cbn [digits2_pos].
  - rewrite Pos2Z.inj_succ. replace (Z.succ (Zpos (digits2_pos p)) - 1) with (Z.succ (Zpos (digits2_pos p) - 1)) by lia.
    rewrite !Z.pow_succ_r by lia. lia.
  - rewrite Pos2Z.inj_succ. replace (Z.succ (Zpos (digits2_pos p)) - 1) with (Z.succ (Zpos (digits2_pos p) - 1)) by lia.
    rewrite !Z.pow_succ_r by lia. lia.
  - cbn. lia.
Qed.

(** The number of digits is the only [d] with [2^(d-1) <= p < 2^d]. *)
Lemma digits2_le (p q : positive) (k : Z) :
  0 <= k -> Zpos p <= Zpos q * 2 ^ k ->
  Zpos (digits2_pos p) <= Zpos (digits2_pos q) + k.
Proof.
  intros Hk Hle.
  pose proof (digits2_bounds p) as [Hp _].
  pose proof (digits2_bounds q) as [_ Hq].
  assert (H : 2 ^ (Zpos (digits2_pos p) - 1) < 2 ^ (Zpos (digits2_pos q) + k)).
  { rewrite Z.pow_add_r by lia.
    eapply Z.le_lt_trans; [exact Hp|]. eapply Z.le_lt_trans; [exact Hle|].
    apply Z.mul_lt_mono_pos_r; [apply Z.pow_pos_nonneg; lia | exact Hq]. }
  apply Z.pow_lt_mono_r_iff in H; lia.
Qed.

Lemma iter_xO_val (p d : positive) : Zpos (Pos.iter xO p d) = Zpos p * 2 ^ Zpos d.
Proof.
  revert p. induction d as [| d IH] using Pos.peano_ind; intros p.
  - cbn. lia.
  - rewrite Pos.iter_succ, Pos2Z.inj_succ, Z.pow_succ_r by lia.
    rewrite Pos2Z.inj_xO, IH. lia.
Qed.

Lemma iter_xO_digits (p d : positive) :
  Zpos (digits2_pos (Pos.iter xO p d)) = Zpos (digits2_pos p) + Zpos d.
Proof.
  revert p. induction d as [| d IH] using Pos.peano_ind; intros p.
  - cbn. lia.
  - rewrite Pos.iter_succ. cbn [digits2_pos]. rewrite Pos2Z.inj_succ, IH. lia.
Qed.

(** ** Shifting right *)

Lemma iter_pos_invariant {A : Type} (f : A -> A) (P : Z -> A -> Prop) :
  (forall k a, 0 <= k -> P k a -> P (k + 1) (f a)) ->
  forall n k a, 0 <= k -> P k a -> P (k + Zpos n) (SpecFloat.iter_pos f n a).
Proof.
  intros step. induction n as [n IH | n IH | ]; intros k a Hk Ha; cbn [SpecFloat.iter_pos].
  - replace (k + Zpos n~1) with (k + 1 + Zpos n + Zpos n) by lia.
    apply IH; [lia|]. apply IH; [lia|]. apply step; assumption.
  - replace (k + Zpos n~0) with (k + Zpos n + Zpos n) by lia.
    apply IH; [lia|]. apply IH; assumption.
  - apply step; assumption.
Qed.

Lemma shr_1_inv (m0 : Z) : 0 <= m0 ->
  forall k mrs, 0 <= k -> shr_inv m0 k mrs -> shr_inv m0 (k + 1) (shr_1 mrs).
Proof.
  intros Hm0 k [m r s] Hk [Hm Hrs]. cbn [shr_m shr_r shr_s] in *.
  assert (Hpow : 0 < 2 ^ k) by (apply Z.pow_pos_nonneg; lia).
  assert (Hm_nonneg : 0 <= m) by (subst m; apply Z.div_pos; lia).
  assert (Hdiv : m0 / 2 ^ (k + 1) = m / 2).
  { rewrite Z.pow_add_r, Z.pow_1_r by lia. rewrite <- Z.div_div by lia. now subst m. }
  assert (Hlost : r || s = true -> m0 mod 2 ^ (k + 1) <> 0).
  { intros H Hz. apply Hrs; [exact H|].
    apply Z.mod_divide in Hz; [|lia]. apply Z.mod_divide; [lia|].
    destruct Hz as [q Hq]. exists (q * 2). rewrite Hq, Z.pow_add_r, Z.pow_1_r by lia. lia. }
  assert (Hodd : m mod 2 = 1 -> m0 mod 2 ^ (k + 1) <> 0).
  { intros Ho Hz. apply Z.mod_divide in Hz; [|lia]. destruct Hz as [q Hq].
    assert (m = q * 2).
    { subst m. rewrite Hq, Z.pow_add_r, Z.pow_1_r by lia.
      replace (q * (2 ^ k * 2)) with (q * 2 * 2 ^ k) by lia. apply Z.div_mul. lia. }
    subst m. rewrite H, Z.mod_mul in Ho; lia. }
  unfold shr_inv, shr_1. rewrite Hdiv.
  destruct m as [| [p | p |] | p]; cbn [shr_m shr_r shr_s]; [| | | | lia].
  - split; [reflexivity|]. cbn [orb]. exact Hlost.
  - pose proof (Pos2Z.inj_xI p) as Hp.
    split; [Z.div_mod_to_equations; lia|].
    intros _. apply Hodd. Z.div_mod_to_equations; lia.
  - pose proof (Pos2Z.inj_xO p) as Hp.
    split; [Z.div_mod_to_equations; lia|].
    cbn [orb]. exact Hlost.
  - split; [reflexivity|]. intros _. apply Hodd. reflexivity.
Qed.

Lemma shr_exact_inv (m0 : Z) (e n : Z) : 0 <= m0 -> 0 <= n ->
  shr_inv m0 n (fst (shr (shr_record_of_loc m0 loc_Exact) e n)) /\
  snd (shr (shr_record_of_loc m0 loc_Exact) e n) = e + n.
Proof.
  intros Hm0 Hn. unfold shr. destruct n as [| p | p]; cbn [fst snd]; try lia.
  - split; [|lia]. unfold shr_inv; cbn. rewrite Z.div_1_r. split; [reflexivity | discriminate].
  - split; [|reflexivity].
    change (Zpos p) with (0 + Zpos p). apply iter_pos_invariant; [apply shr_1_inv; exact Hm0 | lia |].
    unfold shr_inv; cbn. rewrite Z.div_1_r. split; [reflexivity | discriminate].
Qed.

Lemma shr_nonpos (mrs : shr_record) (e n : Z) : n <= 0 -> shr mrs e n = (mrs, e).
Proof. destruct n; [reflexivity | lia | reflexivity]. Qed.

(** Rounding to nearest adds one only when bits were lost. *)
Lemma round_nearest_even_inv (m0 k : Z) (mrs : shr_record) :
  shr_inv m0 k mrs ->
  let m1 := m0 / 2 ^ k in
  let mr := round_nearest_even (shr_m mrs) (loc_of_shr_record mrs) in
  mr = m1 \/ (mr = m1 + 1 /\ m0 mod 2 ^ k <> 0).
Proof.
  intros [Hm Hrs]. destruct mrs as [m r s]. cbn [shr_m shr_r shr_s] in *. subst m.
  destruct r, s; cbn [loc_of_shr_record round_nearest_even orb] in *;
    try (left; reflexivity); try (right; split; [reflexivity | apply Hrs; reflexivity]).
  destruct (Z.even _); [left; reflexivity | right; split; [reflexivity | apply Hrs; reflexivity]].
Qed.

(** ** Rounding to binary64 *)

Lemma fexp64_eq (e : Z) : fexp64 e = Z.max (e - 53) (-1074).
Proof. reflexivity. Qed.

Lemma Zdigits2_small (q : positive) : Zpos q < 2 ^ 53 -> Zpos (digits2_pos q) <= 53.
Proof.
  intros H. pose proof (digits2_bounds q) as [Hlo _].
  assert (Hlt : 2 ^ (Zpos (digits2_pos q) - 1) < 2 ^ 53) by lia.
  apply Z.pow_lt_mono_r_iff in Hlt; lia.
Qed.

(** The second shift of [binary_round_aux]: nothing, or one bit after a carry. *)
Lemma renormalize (s : bool) (e mr : Z) :
  -1074 <= e -> 0 <= mr <= 2 ^ 53 ->
  rounded s e mr
    (let '(mrs, e'') := shr_fexp prec emax mr e loc_Exact in
     match shr_m mrs with
     | Z0 => S754_zero s
     | Zpos m => if Z.leb e'' (emax - prec) then S754_finite s m e'' else S754_infinity s
     | Zneg _ => S754_nan
     end).
Proof.
  intros He Hmr. unfold shr_fexp.
  destruct (Z.eq_dec mr (2 ^ 53)) as [-> | Hne].
  - change (Zdigits2 (2 ^ 53)) with 54. rewrite fexp64_eq.
    replace (Z.max (54 + e - 53) (-1074) - e) with 1 by lia.
    cbn [shr shr_record_of_loc SpecFloat.iter_pos shr_1 shr_m].
    change (2 ^ 53) with (Zpos (xO (Z.to_pos (2 ^ 52)))). cbn [shr_1 shr_m].
    change (emax - prec) with 971.
    destruct (Z.leb_spec (e + 1) 971).
    + apply rounded_carry; [reflexivity | reflexivity | lia].
    + apply rounded_overflow; [reflexivity | right; split; [reflexivity | lia]].
  - destruct mr as [| q | q]; [| | lia].
    + rewrite shr_nonpos by (cbn [Zdigits2]; rewrite fexp64_eq; lia).
      cbn. apply rounded_zero; reflexivity.
    + assert (Hd : Zpos (digits2_pos q) <= 53) by (apply Zdigits2_small; lia).
      rewrite shr_nonpos by (cbn [Zdigits2]; rewrite fexp64_eq; lia).
      cbn [shr_record_of_loc shr_m]. change (emax - prec) with 971.
      destruct (Z.leb_spec e 971).
      * apply rounded_finite; [reflexivity | lia | lia].
      * apply rounded_overflow; [lia | left; lia].
Qed.

(** [binary_round_aux] on an exact, positive mantissa that has to be shifted
    right by [n >= 0] bits. *)
Lemma binary_round_aux_exact (s : bool) (M : positive) (E : Z) :
  let e' := fexp64 (Zpos (digits2_pos M) + E) in
  let n := e' - E in
  let m1 := Zpos M / 2 ^ n in
  0 <= n ->
  exists mr,
    (mr = m1 \/ (mr = m1 + 1 /\ Zpos M mod 2 ^ n <> 0)) /\
    m1 < 2 ^ 53 /\
    rounded s e' mr (binary_round_aux prec emax s (Zpos M) E loc_Exact).
Proof.
  intros e' n m1 Hn.
  assert (Hemin : -1074 <= e') by (unfold e'; rewrite fexp64_eq; lia).
  assert (Hm1 : 0 <= m1 < 2 ^ 53).
  { assert (Hpow : 0 < 2 ^ n) by (apply Z.pow_pos_nonneg; lia).
    split; [apply Z.div_pos; lia|].
    apply Z.div_lt_upper_bound; [lia|].
    pose proof (digits2_bounds M) as [_ Hhi].
    rewrite <- Z.pow_add_r by lia.
    eapply Z.lt_le_trans; [exact Hhi|].
    apply Z.pow_le_mono_r; [lia|]. unfold n, e'. rewrite fexp64_eq. lia. }
  unfold binary_round_aux, shr_fexp at 1. cbn [Zdigits2]. fold e'. fold n.
  destruct (shr_exact_inv (Zpos M) E n) as [Hinv He]; [lia | lia |].
  destruct (shr (shr_record_of_loc (Zpos M) loc_Exact) E n) as [mrs e1].
  cbn [fst snd] in Hinv, He. subst e1. replace (E + n) with e' by (unfold n; lia).
  pose proof (round_nearest_even_inv _ _ _ Hinv) as Hr. cbv zeta in Hr. fold m1 in Hr.
  set (mr := round_nearest_even (shr_m mrs) (loc_of_shr_record mrs)) in *.
  exists mr. split; [exact Hr|]. split; [lia|].
  apply renormalize; [exact Hemin | lia].
Qed.

(** [binary_round] first aligns the mantissa, so that no shift is to the left. *)
Lemma binary_round_spec (s : bool) (M : positive) (E : Z) :
  let e' := fexp64 (Zpos (digits2_pos M) + E) in
  let e1 := Z.min E e' in
  let Z1 := Zpos M * 2 ^ (E - e1) in
  let n := e' - e1 in
  let m1 := Z1 / 2 ^ n in
  exists mr,
    (mr = m1 \/ (mr = m1 + 1 /\ Z1 mod 2 ^ n <> 0)) /\
    m1 < 2 ^ 53 /\
    rounded s e' mr (binary_round prec emax s M E).
Proof.
  intros e' e1 Z1 n m1. unfold binary_round, shl_align. fold e'.
  destruct (e' - E) as [| d | d] eqn:Hd.
  - pose proof (binary_round_aux_exact s M E) as H. cbv zeta in H. fold e' in H.
    assert (He1 : e1 = E) by (unfold e1; lia).
    unfold m1, n, Z1. rewrite He1, Z.sub_diag, Z.pow_0_r, Z.mul_1_r.
    apply H. lia.
  - pose proof (binary_round_aux_exact s M E) as H. cbv zeta in H. fold e' in H.
    assert (He1 : e1 = E) by (unfold e1; lia).
    unfold m1, n, Z1. rewrite He1, Z.sub_diag, Z.pow_0_r, Z.mul_1_r.
    apply H. lia.
  - pose proof (binary_round_aux_exact s (Pos.iter xO M d) e') as H. cbv zeta in H.
    assert (He1 : e1 = e') by (unfold e1; lia).
    assert (HE : E - e' = Zpos d) by lia.
    rewrite iter_xO_digits, iter_xO_val in H.
    replace (Zpos (digits2_pos M) + Zpos d + e') with (Zpos (digits2_pos M) + E) in H by lia.
    fold e' in H.
    unfold m1, n, Z1. rewrite He1, HE, iter_xO_val. apply H. lia.
Qed.

Lemma rounded_signed (s : bool) (e mr : Z) (x : spec_float) :
  rounded s e mr x -> signed s x.
Proof. destruct 1; constructor. Qed.

Lemma shr_m_nonneg (mrs : shr_record) (e n : Z) :
  0 <= shr_m mrs -> 0 <= shr_m (fst (shr mrs e n)).
Proof.
  intros H. unfold shr. destruct n as [| p | p]; cbn [fst]; try exact H.
  change (0 <= shr_m (SpecFloat.iter_pos shr_1 p mrs)).
  apply (iter_pos_invariant shr_1 (fun _ r => 0 <= shr_m r)) with (k := 0); [| lia | exact H].
  intros _ [m r t] _ Hm. cbn [shr_m] in Hm. unfold shr_1.
  destruct m as [| [q | q |] | q]; cbn [shr_m]; lia.
Qed.

Lemma binary_round_aux_signed (s : bool) (M E : Z) (l : location) :
  0 <= M -> signed s (binary_round_aux prec emax s M E l).
Proof.
  intros HM. unfold binary_round_aux, shr_fexp at 1.
  pose proof (shr_m_nonneg (shr_record_of_loc M l) E
                (fexp64 (Zdigits2 M + E) - E)) as H1.
  destruct (shr _ E _) as [mrs e1]. cbn [fst] in H1.
  assert (H0 : 0 <= shr_m mrs) by (apply H1; destruct l as [| []]; cbn; lia).
  set (mr := round_nearest_even (shr_m mrs) (loc_of_shr_record mrs)).
  assert (Hmr : 0 <= mr).
  { unfold mr, round_nearest_even. destruct (loc_of_shr_record mrs) as [| []]; try lia.
    destruct (Z.even _); lia. }
  unfold shr_fexp.
  pose proof (shr_m_nonneg (shr_record_of_loc mr loc_Exact) e1
                (fexp64 (Zdigits2 mr + e1) - e1)) as H2.
  destruct (shr _ e1 _) as [mrs2 e2]. cbn [fst] in H2.
  specialize (H2 Hmr).
  destruct (shr_m mrs2) as [| q | q]; [constructor | | lia].
  destruct (Z.leb e2 (emax - prec)); constructor.
Qed.

(** ** Rounding against a binary64 number *)

Lemma digits2_ge (p q : positive) (k : Z) :
  0 <= k -> Zpos q * 2 ^ k <= Zpos p ->
  Zpos (digits2_pos q) + k <= Zpos (digits2_pos p).
Proof.
  intros Hk Hle.
  pose proof (digits2_bounds p) as [_ Hp].
  pose proof (digits2_bounds q) as [Hq _].
  assert (H : 2 ^ (Zpos (digits2_pos q) - 1 + k) < 2 ^ Zpos (digits2_pos p)).
  { rewrite Z.pow_add_r by lia.
    eapply Z.le_lt_trans; [|exact Hp]. eapply Z.le_trans; [|exact Hle].
    apply Z.mul_le_mono_nonneg_r; [apply Z.pow_nonneg; lia | exact Hq]. }
  apply Z.pow_lt_mono_r_iff in H; lia.
Qed.

Lemma valid_finite (s : bool) (m : positive) (e : Z) :
  valid_binary (S754_finite s m e) = true ->
  fexp64 (Zpos (digits2_pos m) + e) = e /\ e <= 971.
Proof.
  cbn [SpecFloat.valid_binary]. unfold bounded, canonical_mantissa.
  intros H. apply andb_true_iff in H as [H1 H2].
  apply Z.eqb_eq in H1. apply Z.leb_le in H2. split; [exact H1 | exact H2].
Qed.

Lemma canonical_lt (m : positive) (e : Z) :
  fexp64 (Zpos (digits2_pos m) + e) = e -> Zpos m < 2 ^ 53.
Proof.
  rewrite fexp64_eq. intros H. pose proof (digits2_bounds m) as [_ Hhi].
  eapply Z.lt_le_trans; [exact Hhi|]. apply Z.pow_le_mono_r; lia.
Qed.

Lemma pow2_split (a b : Z) : 0 <= a -> 0 <= b -> 2 ^ (a + b) = 2 ^ a * 2 ^ b.
Proof. intros. apply Z.pow_add_r; assumption. Qed.

(** A positive value not above a positive binary64 number rounds to at most it. *)
Lemma round_below (M mx : positive) (E ex : Z) :
  fexp64 (Zpos (digits2_pos mx) + ex) = ex -> ex <= 971 ->
  E <= ex -> Zpos M <= Zpos mx * 2 ^ (ex - E) ->
  SFleb (binary_round prec emax false M E) (S754_finite false mx ex) = true.
Proof.
  intros Hcan Hex HE Hle.
  destruct (binary_round_spec false M E) as (mr & Hmr & Hm1 & Hr).
  set (e' := fexp64 (Zpos (digits2_pos M) + E)) in *.
  set (e1 := Z.min E e') in *.
  set (Z1 := Zpos M * 2 ^ (E - e1)) in *.
  set (n := e' - e1) in *.
  assert (Hmag : Zpos (digits2_pos M) + E <= Zpos (digits2_pos mx) + ex).
  { pose proof (digits2_le M mx (ex - E)). lia. }
  assert (He' : e' <= ex).
  { unfold e'. rewrite fexp64_eq in *. lia. }
  set (X := Zpos mx * 2 ^ (ex - e')).
  assert (Hn : 0 <= n) by (unfold n, e1; lia).
  assert (Hpn : 0 < 2 ^ n) by (apply Z.pow_pos_nonneg; lia).
  assert (HZ1 : Z1 <= X * 2 ^ n).
  { unfold Z1, X. rewrite <- Z.mul_assoc, <- pow2_split by (unfold n, e1; lia).
    replace (ex - e' + n) with ((ex - E) + (E - e1)) by (unfold n; lia).
    rewrite pow2_split by (unfold e1; lia). rewrite Z.mul_assoc.
    apply Z.mul_le_mono_nonneg_r; [apply Z.pow_nonneg; lia | exact Hle]. }
  assert (HmrX : mr <= X).
  { destruct Hmr as [-> | [-> Hmod]].
    - apply Z.div_le_upper_bound; lia.
    - assert (Z1 / 2 ^ n < X); [|lia].
      apply Z.div_lt_upper_bound; [lia|].
      assert (Z1 <> 2 ^ n * X); [|lia].
      intros Heq. apply Hmod. rewrite Heq, Z.mul_comm. apply Z.mod_mul. lia. }
  pose proof (canonical_lt _ _ Hcan) as Hmx.
  assert (Hcarry : mr = 2 ^ 53 -> e' + 1 <= ex).
  { intros Hc. destruct (Z.eq_dec e' ex) as [Heq | ]; [|lia].
    unfold X in HmrX. rewrite Heq, Z.sub_diag, Z.pow_0_r in HmrX. lia. }
  unfold SFleb.
  destruct Hr as [Hz | q Hq Hlt He | q Hc Hq He | Hpos Hov]; cbn [SFcompare].
  - reflexivity.
  - destruct (Z.compare_spec e' ex) as [Heq | Hlt' | Hgt]; [| reflexivity | lia].
    change (Pos.compare_cont Eq q mx) with (Pos.compare q mx).
    unfold X in HmrX. rewrite Heq, Z.sub_diag, Z.pow_0_r in HmrX.
    destruct (Pos.compare_spec q mx); [reflexivity | reflexivity | lia].
  - specialize (Hcarry Hc).
    destruct (Z.compare_spec (e' + 1) ex) as [Heq | Hlt' | Hgt]; [| reflexivity | lia].
    change (Pos.compare_cont Eq q mx) with (Pos.compare q mx).
    unfold X in HmrX. replace (ex - e') with 1 in HmrX by lia.
    change (2 ^ 53) with (2 ^ 52 * 2) in Hc.
    destruct (Pos.compare_spec q mx); [reflexivity | reflexivity | lia].
  - exfalso. destruct Hov as [[_ H] | [Hc H]]; [lia|]. specialize (Hcarry Hc). lia.
Qed.

(** A value whose magnitude is not below a binary64 number rounds to one whose
    magnitude is not below it: an infinity, a larger exponent, or the same
    exponent and a mantissa that is not smaller. *)
Lemma round_above_magnitude (s : bool) (M mx : positive) (E ex : Z) :
  fexp64 (Zpos (digits2_pos mx) + ex) = ex -> ex <= 971 ->
  E <= ex -> Zpos mx * 2 ^ (ex - E) <= Zpos M ->
  binary_round prec emax s M E = S754_infinity s \/
  exists q e,
    binary_round prec emax s M E = S754_finite s q e /\
    (ex < e \/ (e = ex /\ Zpos mx <= Zpos q)).
Proof.
  intros Hcan Hex HE Hle.
  destruct (binary_round_spec s M E) as (mr & Hmr & Hm1 & Hr).
  set (e' := fexp64 (Zpos (digits2_pos M) + E)) in *.
  assert (Hmag : Zpos (digits2_pos mx) + ex <= Zpos (digits2_pos M) + E).
  { pose proof (digits2_ge M mx (ex - E)). lia. }
  assert (He' : ex <= e').
  { unfold e'. rewrite fexp64_eq in *. lia. }
  replace (Z.min E e') with E in * by lia.
  rewrite Z.sub_diag, Z.pow_0_r, Z.mul_1_r in *.
  set (n := e' - E) in *.
  assert (Hn : 0 <= n) by (unfold n; lia).
  assert (Hpn : 0 < 2 ^ n) by (apply Z.pow_pos_nonneg; lia).
  assert (Hlow : (e' = ex /\ Zpos mx <= mr) \/ (ex < e' /\ 1 <= mr)).
  { destruct (Z.eq_dec e' ex) as [Heq | Hne].
    - left. split; [exact Heq|].
      assert (Zpos mx <= Zpos M / 2 ^ n); [|lia].
      apply Z.div_le_lower_bound; [lia|].
      unfold n. rewrite Heq, Z.mul_comm. exact Hle.
    - right. split; [lia|].
      assert (1 <= Zpos M / 2 ^ n); [|lia].
      apply Z.div_le_lower_bound; [lia|]. rewrite Z.mul_1_r.
      pose proof (digits2_bounds M) as [Hlo _].
      eapply Z.le_trans; [|exact Hlo].
      apply Z.pow_le_mono_r; [lia|].
      unfold n, e'. rewrite fexp64_eq in *. lia. }
  destruct Hr as [Hz | q Hq Hlt He | q Hc Hq He | Hpos Hov].
  - lia.
  - right. exists q, e'. split; [reflexivity | lia].
  - right. exists q, (e' + 1). split; [reflexivity | lia].
  - left. reflexivity.
Qed.

(** A negative value not above a negative binary64 number rounds to at most it. *)
Lemma round_above (M mx : positive) (E ex : Z) :
  fexp64 (Zpos (digits2_pos mx) + ex) = ex -> ex <= 971 ->
  E <= ex -> Zpos mx * 2 ^ (ex - E) <= Zpos M ->
  SFleb (binary_round prec emax true M E) (S754_finite true mx ex) = true.
Proof.
  intros Hcan Hex HE Hle.
  destruct (round_above_magnitude true M mx E ex Hcan Hex HE Hle)
    as [-> | (q & e & -> & He)]; [reflexivity |].
  unfold SFleb. cbn [SFcompare].
  destruct (Z.compare_spec e ex) as [Heq | Hlt | Hgt]; [| lia | reflexivity].
  change (Pos.compare_cont Eq q mx) with (Pos.compare q mx).
  destruct (Pos.compare_spec q mx); [reflexivity | lia | reflexivity].
Qed.

(** A positive value not below a positive binary64 number rounds to at least it. *)
Lemma round_above_positive (M mx : positive) (E ex : Z) :
  fexp64 (Zpos (digits2_pos mx) + ex) = ex -> ex <= 971 ->
  E <= ex -> Zpos mx * 2 ^ (ex - E) <= Zpos M ->
  SFleb (S754_finite false mx ex) (binary_round prec emax false M E) = true.
Proof.
  intros Hcan Hex HE Hle.
  destruct (round_above_magnitude false M mx E ex Hcan Hex HE Hle)
    as [-> | (q & e & -> & He)]; [reflexivity |].
  unfold SFleb. cbn [SFcompare].
  destruct (Z.compare_spec ex e) as [Heq | Hlt | Hgt]; [| reflexivity | lia].
  change (Pos.compare_cont Eq mx q) with (Pos.compare mx q).
  destruct (Pos.compare_spec mx q); [reflexivity | reflexivity | lia].
Qed.

Lemma shl_align_val (m : positive) (e e' : Z) :
  e' <= e -> Zpos (fst (shl_align m e e')) = Zpos m * 2 ^ (e - e').
Proof.
  intros H. unfold shl_align. destruct (e' - e) as [| d | d] eqn:Hd; cbn [fst]; try lia.
  - replace (e - e') with 0 by lia. lia.
  - rewrite iter_xO_val. f_equal. f_equal. lia.
Qed.

Lemma signed_false_nonneg (x : spec_float) :
  signed false x -> SFleb (S754_zero false) x = true.
Proof. destruct 1; reflexivity. Qed.

Lemma signed_true_below (x : spec_float) (m : positive) (e : Z) :
  signed true x -> SFleb x (S754_finite false m e) = true.
Proof. destruct 1; reflexivity. Qed.

(** The numbers that are at least zero. *)
Lemma SFleb_zero_inv (y : spec_float) :
  SFleb (S754_zero false) y = true ->
  (exists s, y = S754_zero s) \/ y = S754_infinity false \/
  (exists m e, y = S754_finite false m e).
Proof.
  destruct y as [s | [] | | [] m e]; cbn; try discriminate; intros _.
  - left. now exists s.
  - right. now left.
  - right. right. now exists m, e.
Qed.

(** Taking away a number that is at least zero does not increase a number
    below infinity. *)
Lemma SFsub_le (x y : spec_float) :
  valid_binary x = true ->
  SFltb x (S754_infinity false) = true ->
  SFleb (S754_zero false) y = true ->
  SFleb (SF64sub x y) x = true.
Proof.
  intros Hvalid Hx Hy.
  apply SFleb_zero_inv in Hy as [[sy ->] | [-> | (my & ey & ->)]].
  - destruct x as [[] | [] | | sx mx ex]; try discriminate Hx; destruct sy; try reflexivity.
    + cbn. unfold SFleb. cbn [SFcompare]. destruct sx.
      * rewrite Z.compare_refl. change (Pos.compare_cont Eq mx mx) with (Pos.compare mx mx).
        now rewrite Pos.compare_refl.
      * rewrite Z.compare_refl. change (Pos.compare_cont Eq mx mx) with (Pos.compare mx mx).
        now rewrite Pos.compare_refl.
    + cbn. unfold SFleb. cbn [SFcompare]. destruct sx.
      * rewrite Z.compare_refl. change (Pos.compare_cont Eq mx mx) with (Pos.compare mx mx).
        now rewrite Pos.compare_refl.
      * rewrite Z.compare_refl. change (Pos.compare_cont Eq mx mx) with (Pos.compare mx mx).
        now rewrite Pos.compare_refl.
  - destruct x as [[] | [] | | [] mx ex]; try discriminate Hx; reflexivity.
  - destruct x as [[] | [] | | sx mx ex]; try discriminate Hx; try reflexivity.
    apply valid_finite in Hvalid as [Hcan Hex].
    unfold SF64sub, SFsub.
    set (ez := Z.min ex ey).
    pose proof (shl_align_val mx ex ez ltac:(lia)) as HMx.
    pose proof (shl_align_val my ey ez ltac:(lia)) as HMy.
    set (Mx := fst (shl_align mx ex ez)) in *.
    set (My := fst (shl_align my ey ez)) in *.
    cbn [cond_Zopp]. unfold cond_Zopp.
    destruct sx.
    + (* x < 0: the magnitudes add up *)
      replace (- Zpos Mx - Zpos My) with (Zneg (Mx + My)) by lia.
      cbn [binary_normalize].
      apply round_above; [exact Hcan | exact Hex | lia |].
      rewrite <- HMx. lia.
    + (* x > 0 *)
      destruct (Zpos Mx - Zpos My) as [| M | M] eqn:HM; cbn [binary_normalize].
      * reflexivity.
      * apply round_below; [exact Hcan | exact Hex | lia |].
        rewrite <- HMx. lia.
      * apply signed_true_below.
        destruct (binary_round_spec true M ez) as (mr & _ & _ & Hr).
        exact (rounded_signed _ _ _ _ Hr).
Qed.

(** The product of a positive binary64 number and a number that is at least
    zero is at least zero. *)
Lemma SFmul_nonneg_l (mx : positive) (ex : Z) (y : spec_float) :
  SFleb (S754_zero false) y = true ->
  SFleb (S754_zero false) (SF64mul (S754_finite false mx ex) y) = true.
Proof.
  intros Hy.
  apply SFleb_zero_inv in Hy as [[sy ->] | [-> | (my & ey & ->)]].
  - destruct sy; reflexivity.
  - reflexivity.
  - apply signed_false_nonneg. unfold SF64mul, SFmul. cbn [xorb].
    apply binary_round_aux_signed. lia.
Qed.

Lemma SFmul_nonneg_r (x : spec_float) (my : positive) (ey : Z) :
  SFleb (S754_zero false) x = true ->
  SFleb (S754_zero false) (SF64mul x (S754_finite false my ey)) = true.
Proof.
  intros Hx.
  apply SFleb_zero_inv in Hx as [[sx ->] | [-> | (mx & ex & ->)]].
  - destruct sx; reflexivity.
  - reflexivity.
  - apply signed_false_nonneg. unfold SF64mul, SFmul. cbn [xorb].
    apply binary_round_aux_signed. lia.
Qed.

(** Adding a number that is at least zero does not decrease a positive number. *)
Lemma SFadd_ge (x y : spec_float) :
  valid_binary x = true ->
  SFltb (S754_zero false) x = true ->
  SFleb (S754_zero false) y = true ->
  SFleb x (SF64add x y) = true.
Proof.
  intros Hvalid Hx Hy.
  assert (Hrefl : forall mx ex,
    SFleb (S754_finite false mx ex) (S754_finite false mx ex) = true).
  { intros mx ex. unfold SFleb. cbn [SFcompare]. rewrite Z.compare_refl.
    change (Pos.compare_cont Eq mx mx) with (Pos.compare mx mx).
    now rewrite Pos.compare_refl. }
  apply SFleb_zero_inv in Hy as [[sy ->] | [-> | (my & ey & ->)]];
    destruct x as [[] | [] | | [] mx ex]; try discriminate Hx;
    try reflexivity; try (destruct sy; try reflexivity; apply Hrefl).
  apply valid_finite in Hvalid as [Hcan Hex].
  unfold SF64add, SFadd.
  set (ez := Z.min ex ey).
  pose proof (shl_align_val mx ex ez ltac:(lia)) as HMx.
  pose proof (shl_align_val my ey ez ltac:(lia)) as HMy.
  set (Mx := fst (shl_align mx ex ez)) in *.
  set (My := fst (shl_align my ey ez)) in *.
  cbn [cond_Zopp]. change (Zpos Mx + Zpos My) with (Zpos (Mx + My)).
  cbn [binary_normalize].
  apply round_above_positive; [exact Hcan | exact Hex | lia |].
  rewrite <- HMx. lia.
Qed.

(** The quotient of a number that is at least zero by a positive binary64
    number is at least zero. *)
Lemma SFdiv_nonneg (x : spec_float) (my : positive) (ey : Z) :
  SFleb (S754_zero false) x = true ->
  SFleb (S754_zero false) (SF64div x (S754_finite false my ey)) = true.
Proof.
  intros Hx.
  apply SFleb_zero_inv in Hx as [[sx ->] | [-> | (mx & ex & ->)]].
  - destruct sx; reflexivity.
  - reflexivity.
  - apply signed_false_nonneg. unfold SF64div, SFdiv, SFdiv_core_binary. cbn [xorb].
    set (m' := match _ - _ - _ with Z0 => Zpos mx | Zpos _ => Z.shiftl (Zpos mx) _ | Zneg _ => 0 end).
    assert (Hm' : 0 <= m').
    { unfold m'. destruct (_ - _ - _); [lia | apply Z.shiftl_nonneg; lia | lia]. }
    pose proof (Z.div_pos m' (Zpos my) Hm' ltac:(lia)) as Hq.
    unfold Z.div in Hq. destruct (Z.div_eucl m' (Zpos my)) as [q r].
    apply binary_round_aux_signed. exact Hq.
Qed.

(** Zero divided by a positive number is zero. *)
Lemma SFdiv_zero (d : spec_float) :
  SFltb (S754_zero false) d = true -> SF64div (S754_zero false) d = S754_zero false.
Proof. destruct d as [[] | [] | | [] md ed]; cbn; try discriminate; reflexivity. Qed.

Lemma SFltb_zero_le (x z : spec_float) :
  SFltb (S754_zero false) x = true -> SFleb x z = true ->
  SFltb (S754_zero false) z = true.
Proof.
  destruct x as [[] | [] | | [] mx ex], z as [[] | [] | | [] mz ez];
    cbn; try discriminate; reflexivity.
Qed.

(** ** Comparisons *)

Lemma SFleb_below_infinity (a b : spec_float) :
  SFleb a b = true -> SFltb b (S754_infinity false) = true ->
  SFltb a (S754_infinity false) = true.
Proof.
  destruct a as [[] | [] | | [] ma ea], b as [[] | [] | | [] mb eb];
    cbn; try discriminate; reflexivity.
Qed.

Lemma SFcompare_antisym (x y : spec_float) :
  SFcompare y x = option_map CompOpp (SFcompare x y).
Proof.
  destruct x as [[] | [] | | [] mx ex], y as [[] | [] | | [] my ey]; try reflexivity;
    cbn [SFcompare option_map]; rewrite (Z.compare_antisym ex ey);
    destruct (ex ?= ey); cbn [CompOpp]; try reflexivity;
    change (Pos.compare_cont Eq my mx) with (Pos.compare my mx);
    change (Pos.compare_cont Eq mx my) with (Pos.compare mx my);
    rewrite (Pos.compare_antisym mx my); destruct (mx ?= my)%positive; reflexivity.
Qed.

Lemma SFleb_not_gt (x y : spec_float) : SFleb x y = true -> SFltb y x = false.
Proof.
  unfold SFleb, SFltb. rewrite (SFcompare_antisym x y).
  destruct (SFcompare x y) as [[] |]; cbn; congruence.
Qed.

Lemma SFltb_zero_below (x : spec_float) (mc : positive) (ec : Z) :
  SFltb x (S754_finite false mc ec) = false -> SFeqb x (S754_zero false) = false.
Proof.
  destruct x as [[] | [] | | [] mx ex]; cbn; try discriminate; reflexivity.
Qed.

(** Below a positive number is below every larger positive number. *)
Lemma SFltb_finite_mono (x : spec_float) (ma mb : positive) (ea eb : Z) :
  ea < eb \/ (ea = eb /\ Zpos ma <= Zpos mb) ->
  SFltb x (S754_finite false ma ea) = true ->
  SFltb x (S754_finite false mb eb) = true.
Proof.
  intros Hab. unfold SFltb.
  destruct x as [[] | [] | | [] mx ex]; cbn [SFcompare]; try congruence.
  destruct (Z.compare_spec ex ea) as [-> | Hlt | Hgt]; try discriminate.
  - change (Pos.compare_cont Eq mx ma) with (Pos.compare mx ma).
    destruct (Pos.compare_spec mx ma) as [| Hm |]; try discriminate. intros _.
    destruct (Z.compare_spec ea eb) as [-> | |]; [| reflexivity | lia].
    change (Pos.compare_cont Eq mx mb) with (Pos.compare mx mb).
    destruct (Pos.compare_spec mx mb); [lia | reflexivity | lia].
  - intros _. destruct (Z.compare_spec ex eb) as [-> | |]; [lia | reflexivity | lia].
Qed.

(** ** The same on primitive floats *)

Local Open Scope float_scope.

Lemma Prim2SF_zero : Prim2SF 0 = S754_zero false.
Proof. reflexivity. Qed.

Lemma Prim2SF_infinity : Prim2SF infinity = S754_infinity false.
Proof. reflexivity. Qed.

Theorem sub_le (h d : float) :
  (h <? infinity) = true -> (0 <=? d) = true -> (h - d <=? h) = true.
Proof.
  rewrite ltb_spec, !leb_spec, sub_spec, Prim2SF_zero, Prim2SF_infinity.
  apply SFsub_le, Prim2SF_valid.
Qed.

Theorem leb_below_infinity (a b : float) :
  (a <=? b) = true -> (b <? infinity) = true -> (a <? infinity) = true.
Proof.
  rewrite leb_spec, !ltb_spec, Prim2SF_infinity. apply SFleb_below_infinity.
Qed.

Theorem mul_nonneg_l (c x : float) :
  positive_finite c -> (0 <=? x) = true -> (0 <=? c * x) = true.
Proof.
  intros (m & e & Hc). rewrite !leb_spec, mul_spec, Prim2SF_zero, Hc.
  apply SFmul_nonneg_l.
Qed.

Theorem mul_nonneg_r (x c : float) :
  positive_finite c -> (0 <=? x) = true -> (0 <=? x * c) = true.
Proof.
  intros (m & e & Hc). rewrite !leb_spec, mul_spec, Prim2SF_zero, Hc.
  apply SFmul_nonneg_r.
Qed.

Theorem leb_not_gt (x y : float) : (x <=? y) = true -> (y <? x) = false.
Proof. rewrite leb_spec, ltb_spec. apply SFleb_not_gt. Qed.

Theorem not_below_positive_nonzero (x c : float) :
  positive_finite c -> (x <? c) = false -> (x =? 0) = false.
Proof.
  intros (m & e & Hc). rewrite ltb_spec, FloatAxioms.eqb_spec, Prim2SF_zero, Hc.
  apply SFltb_zero_below.
Qed.

Theorem ltb_below_larger (x a b : float) (ma mb : positive) (ea eb : Z) :
  Prim2SF a = S754_finite false ma ea -> Prim2SF b = S754_finite false mb eb ->
  (ea < eb \/ (ea = eb /\ Zpos ma <= Zpos mb))%Z ->
  (x <? a) = true -> (x <? b) = true.
Proof.
  intros Ha Hb Hab. rewrite !ltb_spec, Ha, Hb. now apply SFltb_finite_mono.
Qed.

Theorem positive_finite_pos (c : float) : positive_finite c -> (0 <? c) = true.
Proof. intros (m & e & Hc). now rewrite ltb_spec, Prim2SF_zero, Hc. Qed.

Theorem positive_finite_nonneg (c : float) : positive_finite c -> (0 <=? c) = true.
Proof. intros (m & e & Hc). now rewrite leb_spec, Prim2SF_zero, Hc. Qed.

Theorem add_ge (x y : float) :
  (0 <? x) = true -> (0 <=? y) = true -> (x <=? x + y) = true.
Proof.
  rewrite ltb_spec, !leb_spec, add_spec, Prim2SF_zero.
  apply SFadd_ge, Prim2SF_valid.
Qed.

Theorem pos_le_pos (x z : float) :
  (0 <? x) = true -> (x <=? z) = true -> (0 <? z) = true.
Proof. rewrite !ltb_spec, leb_spec, Prim2SF_zero. apply SFltb_zero_le. Qed.

Theorem add_pos (x y : float) :
  (0 <? x) = true -> (0 <=? y) = true -> (0 <? x + y) = true.
Proof. intros Hx Hy. exact (pos_le_pos _ _ Hx (add_ge _ _ Hx Hy)). Qed.

Theorem div_nonneg (x d : float) :
  positive_finite d -> (0 <=? x) = true -> (0 <=? x / d) = true.
Proof.
  intros (m & e & Hd). rewrite !leb_spec, div_spec, Prim2SF_zero, Hd.
  apply SFdiv_nonneg.
Qed.

Theorem zero_div_pos (d : float) : (0 <? d) = true -> 0 / d = 0.
Proof.
  rewrite ltb_spec, Prim2SF_zero. intros Hd.
  apply Prim2SF_inj. rewrite div_spec, Prim2SF_zero. now apply SFdiv_zero.
Qed.

End Binary64.

(** * The friction/velocity solvers *)

Section Solver.
Import ProperFluidSim.
Variable m : Py.libm.

(** The constants of the program are positive finite numbers. *)
Lemma RE_FLOOR_positive : Rounding.positive_finite RE_FLOOR.
Proof. eexists _, _. vm_compute. reflexivity. Qed.

Lemma area_ratio_positive : Rounding.positive_finite (A_TUBE / A_TANK).
Proof. eexists _, _. vm_compute. reflexivity. Qed.

Lemma DT_positive : Rounding.positive_finite DT.
Proof. eexists _, _. vm_compute. reflexivity. Qed.

Lemma D_TUBE_positive : Rounding.positive_finite D_TUBE.
Proof. eexists _, _. vm_compute. reflexivity. Qed.

(** At zero height the velocity is zero, whatever the friction factor and the
    tube length, both at least zero: the denominator is positive. *)
Lemma velocity_zero_height (L f : float) :
  Rounding.positive_finite f -> (0 <=? L) = true -> velocity 0 L f = 0.
Proof.
  intros Hf HL. unfold velocity. change (2 * G * 0) with 0.
  rewrite Binary64.zero_div_pos; [reflexivity |].
  repeat (apply Binary64.add_pos; [| reflexivity]).
  apply Binary64.add_pos; [reflexivity |].
  apply Binary64.div_nonneg; [exact D_TUBE_positive |].
  apply Binary64.mul_nonneg_l; [exact Hf | exact HL].
Qed.

(** At zero height the loop converges at its second iteration, on the friction
    factor of the floored Reynolds number. *)
Lemma friction_loop_zero_height (n : nat) (L : float) :
  (0 <=? L) = true ->
  friction_loop m (S (S n)) 0 L default_tol 0.02 0 = (Break, (0, 64000000)).
Proof.
  intros HL. cbn [friction_loop].
  change (new_friction m (reynolds 0) 0.02) with 64000000.
  change (abs (64000000 - 0.02) <? default_tol) with false. cbv iota.
  rewrite velocity_zero_height; [| eexists _, _; vm_compute; reflexivity | exact HL].
  change (new_friction m (reynolds 0) 64000000) with 64000000.
  reflexivity.
Qed.

Lemma solve_zero_height (L : float) :
  (0 <=? L) = true ->
  solve m 0 L default_tol default_max_iterations = (Break, (0, 64000000)).
Proof.
  intros HL. unfold solve.
  rewrite velocity_zero_height; [| eexists _, _; vm_compute; reflexivity | exact HL].
  change (Py.range default_max_iterations) with (S (S 98)).
  now apply friction_loop_zero_height.
Qed.

(** The velocity is always the one of the current friction factor, however the
    loop is left. *)
Lemma friction_loop_velocity (n : nat) (h L tol : float) :
  forall f v x v' f',
    v = velocity h L f ->
    friction_loop m n h L tol f v = (x, (v', f')) ->
    v' = velocity h L f'.
Proof.
  induction n as [| n IH]; intros f v x v' f' Hv; cbn [friction_loop].
  - intros [= _ <- <-]. exact Hv.
  - destruct (abs _ <? tol).
    + intros [= _ <- <-]. exact Hv.
    + apply IH. reflexivity.
Qed.

(** Leaving by [break] is passing the convergence test on the values returned. *)
Lemma friction_loop_break (n : nat) (h L tol : float) :
  forall f v v' f',
    friction_loop m n h L tol f v = (Break, (v', f')) ->
    (abs (new_friction m (reynolds v') f' - f') <? tol) = true.
Proof.
  induction n as [| n IH]; intros f v v' f'; cbn [friction_loop].
  - discriminate.
  - destruct (abs _ <? tol) eqn:Htest.
    + intros [= <- <-]. exact Htest.
    + apply IH.
Qed.

(** The sibling solver returns only from a converged iteration, with the
    friction factor just computed from the Reynolds number it returns. *)
Lemma darcy_loop_ok (n : nat) (h L epsilon D K rho mu tol : float) :
  forall f Re f',
    IterativeDarcy.darcy_loop m n h L epsilon D K rho mu tol f = Ok (Re, f') ->
    f' = IterativeDarcy.f_update m epsilon D Re.
Proof.
  induction n as [| n IH]; intros f Re f'; cbn [IterativeDarcy.darcy_loop].
  - discriminate.
  - destruct (abs _ <? tol).
    + intros [= <- <-]. reflexivity.
    + apply IH.
Qed.

End Solver.

(** ** Leaving the loop without convergence *)

Section SolverClaims.
Import ProperFluidSim.

(** C1: when the friction factor has not stabilized within [max_iterations]
    iterations the solver is to fail with an error.  The solver of
    [proper_fluid_sim.py] does not: at [h = 0.001], [L = 0.2], [tol = 1e-6] and
    one iteration, the test [|new_f - f| < tol] fails, the range runs out, and
    the pair [(v, f)] of the moment is returned as if it were the answer.  The
    solver of [reynolds_numbers_w_iterative_darcy.py] raises on the same
    input. *)
Theorem unconverged_solver_returns_a_pair : forall m : Py.libm,
  let h := 0.001 in
  let L := 0.2 in
  let tol := 1e-6 in
  (abs (new_friction m (reynolds (velocity h L 0.02)) 0.02 - 0.02) <? tol) = false /\
  solve m h L tol 1 = (Exhausted, (0.075128456921384021, 0.080435472081831841)) /\
  calculate_velocity_and_friction m h L tol 1
    = (0.075128456921384021, 0.080435472081831841) /\
  IterativeDarcy.iterative_darcy_reynolds m h L 0.0015 0.00794 1.5 1000 0.001 1 tol
    = RuntimeError IterativeDarcy.not_converged.
Proof.
  intros m. cbv zeta. repeat split; vm_compute; reflexivity.
Qed.

(** C7: with [max_iterations = 0] the solver is to fail, no iteration having
    passed the tolerance test.  The solver of [proper_fluid_sim.py] returns the
    seed [f = 0.02] and its velocity instead, for every height, length and
    tolerance; the sibling solver raises. *)
Theorem zero_iterations_return_the_seed (m : Py.libm) (h L tol : float) :
  solve m h L tol 0 = (Exhausted, (velocity h L 0.02, 0.02)) /\
  calculate_velocity_and_friction m h L tol 0 = (velocity h L 0.02, 0.02) /\
  (forall epsilon D K rho mu,
     IterativeDarcy.iterative_darcy_reynolds m h L epsilon D K rho mu 0 tol
       = RuntimeError IterativeDarcy.not_converged).
Proof. repeat split. Qed.

(** The seed at [h = 0.1], [L = 0.3]. *)
Example zero_iterations_at_10cm (m : Py.libm) :
  calculate_velocity_and_friction m 0.1 0.3 1e-6 0 = (0.94314719813776027, 0.02).
Proof. vm_compute. reflexivity. Qed.

(** ** What a converged call returns *)

(** C2: a converged call returns a velocity and a friction factor that satisfy
    the energy balance, [v = sqrt(2 g h / (1 + f L / D + K_entrance + K_exit))]
    at the friction factor returned, and the friction factor the correlation
    gives at the Reynolds number of that velocity is within the tolerance of
    the one returned. *)
Theorem converged_call_is_consistent (m : Py.libm) (h L tol : float)
  (max_iterations : Z) (v f : float) :
  solve m h L tol max_iterations = (Break, (v, f)) ->
  calculate_velocity_and_friction m h L tol max_iterations = (v, f) /\
  v = sqrt (2 * G * h / (1 + (f * L / D_TUBE) + K_ENTRANCE + K_EXIT)) /\
  (abs (new_friction m (reynolds v) f - f) <? tol) = true.
Proof.
  intros Hsolve. split; [| split].
  - unfold calculate_velocity_and_friction. now rewrite Hsolve.
  - unfold solve in Hsolve.
    exact (friction_loop_velocity m _ h L tol _ _ _ _ _ eq_refl Hsolve).
  - unfold solve in Hsolve.
    exact (friction_loop_break m _ h L tol _ _ _ _ Hsolve).
Qed.

(** A converged call: ten centimetres of water above a tube of a kilometre. *)
Example solve_long_tube (m : Py.libm) :
  solve m 0.1 1000 1e-6 100 = (Break, (0.0019326753348702609, 4.1706188165764901)).
Proof. vm_compute. reflexivity. Qed.

Lemma converged_call_is_consistent_witness :
  solve Py.no_libm 0.1 1000 1e-6 100
    = (Break, (0.0019326753348702609, 4.1706188165764901)) /\
  calculate_velocity_and_friction Py.no_libm 0.1 1000 1e-6 100
    = (0.0019326753348702609, 4.1706188165764901) /\
  0.0019326753348702609
    = sqrt (2 * G * 0.1 / (1 + (4.1706188165764901 * 1000 / D_TUBE) + K_ENTRANCE + K_EXIT)) /\
  (abs (new_friction Py.no_libm (reynolds 0.0019326753348702609) 4.1706188165764901
        - 4.1706188165764901) <? 1e-6) = true.
Proof.
  split; [apply solve_long_tube |].
  apply (converged_call_is_consistent Py.no_libm 0.1 1000 1e-6 100).
  apply solve_long_tube.
Defined.

(** ** The friction factor by flow regime *)

(** C3: every iteration computes the new friction factor by regime.  With [Re]
    the Reynolds number of the current velocity (floored): below the laminar
    threshold, a constant between 2000 and 2300, it is [64 / Re]; at or above
    it, it is the Colebrook formula evaluated at [Re], the relative roughness
    and the friction factor of the iteration before. *)
Theorem friction_update_by_regime (m : Py.libm) (n : nat) (h L tol f v : float) :
  let Re := reynolds v in
  exists new_f,
    ((Re <? RE_LAMINAR) = true -> new_f = 64 / Re) /\
    ((RE_LAMINAR <=? Re) = true ->
       new_f = Py.power m
                 (-2.0 * Py.log10 m (EPSILON / (3.7 * D_TUBE) + 2.51 / (Re * sqrt f)))
                 (-2)) /\
    friction_loop m (S n) h L tol f v =
      (if abs (new_f - f) <? tol then (Break, (v, f))
       else friction_loop m n h L tol new_f (velocity h L new_f)) /\
    (2000 <=? RE_LAMINAR) = true /\ (RE_LAMINAR <=? 2300) = true.
Proof.
  intros Re. exists (new_friction m Re f). repeat split.
  - unfold new_friction. now intros ->.
  - intros Hge. apply Binary64.leb_not_gt in Hge.
    unfold new_friction. now rewrite Hge.
Qed.

Lemma friction_update_by_regime_witness :
  (reynolds 0.1 <? RE_LAMINAR) = true /\
  exists new_f,
    new_f = 64 / reynolds 0.1 /\
    friction_loop Py.no_libm 1 0.001 0.2 1e-6 0.02 0.1 =
      (if abs (new_f - 0.02) <? 1e-6 then (Break, (0.1, 0.02))
       else friction_loop Py.no_libm 0 0.001 0.2 1e-6 new_f (velocity 0.001 0.2 new_f)).
Proof.
  assert (Hlam : (reynolds 0.1 <? RE_LAMINAR) = true) by (vm_compute; reflexivity).
  split; [exact Hlam |].
  destruct (friction_update_by_regime Py.no_libm 0 0.001 0.2 1e-6 0.02 0.1)
    as (new_f & Hlaminar & _ & Hloop & _).
  exists new_f. split; [exact (Hlaminar Hlam) | exact Hloop].
Defined.

(** Both regimes occur: a velocity of 0.1 m/s is laminar, one of 1 m/s is not. *)
Example both_regimes :
  (reynolds 0.1 <? RE_LAMINAR) = true /\ (RE_LAMINAR <=? reynolds 1) = true.
Proof. split; vm_compute; reflexivity. Qed.

(** ** The laminar closed form *)

(** The calls for which the closed form holds: below a Reynolds number of
    2000, [iterative_darcy_reynolds] returns [(Re, 64 / Re)] itself, and a call
    of [calculate_velocity_and_friction] that left its loop by [break] returns
    [f] within [tol] of [64 / Re] at the Reynolds number of the velocity
    returned. *)
Theorem laminar_closed_form (m : Py.libm) (tol : float) :
  (forall h L epsilon D K rho mu max_iter Re f,
     IterativeDarcy.iterative_darcy_reynolds m h L epsilon D K rho mu max_iter tol
       = Ok (Re, f) ->
     (Re <? 2000) = true ->
     f = 64 / Re) /\
  (forall h L max_iterations v f,
     solve m h L tol max_iterations = (Break, (v, f)) ->
     (reynolds v <? 2000) = true ->
     (reynolds v <? RE_LAMINAR) = true /\
     (abs (64 / reynolds v - f) <? tol) = true).
Proof.
  split.
  - intros h L epsilon D K rho mu max_iter Re f Hok Hlam.
    apply darcy_loop_ok in Hok. subst f.
    unfold IterativeDarcy.f_update. now rewrite Hlam.
  - intros h L max_iterations v f Hsolve Hlam.
    assert (Hlam' : (reynolds v <? RE_LAMINAR) = true).
    { revert Hlam.
      apply (Binary64.ltb_below_larger _ 2000 RE_LAMINAR _ _ _ _ eq_refl eq_refl).
      left. reflexivity. }
    split; [exact Hlam'|].
    unfold solve in Hsolve. apply friction_loop_break in Hsolve.
    unfold new_friction in Hsolve. now rewrite Hlam' in Hsolve.
Qed.

(** A laminar call of each solver. *)
Example darcy_laminar_call (m : Py.libm) :
  IterativeDarcy.iterative_darcy_reynolds m 0.001 0.2 0.0015 0.00794 1.5 1000 0.001 100 1e-6
    = Ok (451.35230795586472, 0.1417961066596744).
Proof. vm_compute. reflexivity. Qed.

Lemma laminar_closed_form_witness :
  (IterativeDarcy.iterative_darcy_reynolds
     Py.no_libm 0.001 0.2 0.0015 0.00794 1.5 1000 0.001 100 1e-6
     = Ok (451.35230795586472, 0.1417961066596744) /\
   (451.35230795586472 <? 2000) = true /\
   0.1417961066596744 = 64 / 451.35230795586472) /\
  (solve Py.no_libm 0.1 1000 1e-6 100
     = (Break, (0.0019326753348702609, 4.1706188165764901)) /\
   (reynolds 0.0019326753348702609 <? 2000) = true /\
   (reynolds 0.0019326753348702609 <? RE_LAMINAR) = true /\
   (abs (64 / reynolds 0.0019326753348702609 - 4.1706188165764901) <? 1e-6) = true).
Proof.
  split.
  - split; [apply darcy_laminar_call |]. split; [vm_compute; reflexivity |].
    apply (proj1 (laminar_closed_form Py.no_libm 1e-6)
             0.001 0.2 0.0015 0.00794 1.5 1000 0.001 100%Z).
    + apply darcy_laminar_call.
    + vm_compute; reflexivity.
  - split; [apply solve_long_tube |]. split; [vm_compute; reflexivity |].
    apply (proj2 (laminar_closed_form Py.no_libm 1e-6) 0.1 1000 100%Z).
    + apply solve_long_tube.
    + vm_compute; reflexivity.
Defined.

(** C8 (code defect): the friction factor [calculate_velocity_and_friction]
    returns below a Reynolds number of 2000 is not always within the tolerance
    of [64 / Re]. With [h = 0.001], [L = 0.2], [tol = 1e-6] and
    [max_iterations = 1] the loop runs out and the function returns all the
    same: the friction factor returned is [64 / Re] at the seed's velocity
    (Reynolds number 795.67), the velocity returned has the Reynolds number
    596.52, also below 2000, and [64 / Re] there is 0.1073, which is 0.0269
    away from the 0.0804 returned. It is the missing error after the loop
    that lets this pair out. *)
Theorem unconverged_laminar_call_misses_closed_form (m : Py.libm) :
  let v := 0.075128456921384021 in
  let f := 0.080435472081831841 in
  solve m 0.001 0.2 1e-6 1 = (Exhausted, (v, f)) /\
  calculate_velocity_and_friction m 0.001 0.2 1e-6 1 = (v, f) /\
  reynolds (velocity 0.001 0.2 0.02) = 795.66885533895982 /\
  f = 64 / reynolds (velocity 0.001 0.2 0.02) /\
  reynolds v = 596.51994795578901 /\
  (reynolds v <? 2000) = true /\
  64 / reynolds v = 0.10728895189393289 /\
  abs (64 / reynolds v - f) = 0.026853479812101053 /\
  (abs (64 / reynolds v - f) <? 1e-6) = false.
Proof. cbv zeta. repeat split; vm_compute; reflexivity. Qed.

(** ** The floor of the Reynolds number *)

(** C9: a Reynolds number that is degenerate (below [1e-6], so zero at zero
    height) is replaced by the floor [1e-6] before it is used: the Reynolds
    number of an iteration is never below the floor and never zero, the
    iteration divides 64 by nothing else, and at zero height the solver
    returns, for every tube length that is at least zero. *)
Theorem reynolds_is_floored (m : Py.libm) (v : float) :
  ((RHO * v * D_TUBE / MU <? RE_FLOOR) = true -> reynolds v = RE_FLOOR) /\
  (reynolds v <? RE_FLOOR) = false /\
  (reynolds v =? 0) = false /\
  (forall n h L tol f,
     friction_loop m (S n) h L tol f v =
       let Re := reynolds v in
       let new_f := if Re <? RE_LAMINAR then 64 / Re else colebrook m Re D_TUBE f in
       if abs (new_f - f) <? tol then (Break, (v, f))
       else friction_loop m n h L tol new_f (velocity h L new_f)) /\
  (forall L,
     (0 <=? L) = true ->
     calculate_velocity_and_friction m 0 L default_tol default_max_iterations
       = (0, 64 / RE_FLOOR)).
Proof.
  assert (Hfloor : (reynolds v <? RE_FLOOR) = false).
  { unfold reynolds. destruct (RHO * v * D_TUBE / MU <? RE_FLOOR) eqn:Hraw;
      [reflexivity | exact Hraw]. }
  repeat split.
  - unfold reynolds. now intros ->.
  - exact Hfloor.
  - exact (Binary64.not_below_positive_nonzero _ _ RE_FLOOR_positive Hfloor).
  - intros L HL. unfold calculate_velocity_and_friction.
    now rewrite solve_zero_height.
Qed.

Lemma reynolds_is_floored_witness :
  (RHO * 0 * D_TUBE / MU <? RE_FLOOR) = true /\
  reynolds 0 = RE_FLOOR /\
  (0 <=? 0.3) = true /\
  calculate_velocity_and_friction Py.no_libm 0 0.3 default_tol default_max_iterations
    = (0, 64000000).
Proof.
  split; [vm_compute; reflexivity |].
  split; [apply (proj1 (reynolds_is_floored Py.no_libm 0)); vm_compute; reflexivity |].
  split; [vm_compute; reflexivity |].
  apply (proj2 (proj2 (proj2 (proj2 (reynolds_is_floored Py.no_libm 0))))).
  vm_compute; reflexivity.
Defined.

End SolverClaims.

(** * The drain simulator *)

Section Simulator.
Import ProperFluidSim.
Variable m : Py.libm.

(** ** The loop as the recurrence *)

Lemma trajectory_S (L : float) (n : nat) :
  Euler.trajectory m L (S n)
    = Euler.trajectory m L n ++ [(Euler.time (S n), Euler.height m L (S n))].
Proof. unfold Euler.trajectory. now rewrite seq_S, map_app. Qed.

Lemma drain_body_state_at (L : float) (k : nat) :
  drain_body m L (Euler.state_at m L k) = Euler.state_at m L (S k).
Proof.
  unfold drain_body, Euler.state_at. cbn [ds_h ds_total_time ds_heights ds_times].
  rewrite trajectory_S, !map_app. cbn [map fst snd Euler.height Euler.time].
  unfold Euler.delta_h, Euler.solver_velocity.
  destruct (calculate_velocity_and_friction m _ L _ _) as [v f]. reflexivity.
Qed.

(** From the state after [k] steps, the loop stops at the first step from [k]
    on at which the height is not above [H_FINAL]. *)
Lemma drain_loop_from (L : float) (fuel : nat) :
  forall k,
    drain_loop m fuel L (Euler.state_at m L k) =
      match find (fun j => negb (Euler.looping m L j)) (seq k (S fuel)) with
      | Some n =>
          Returned (Euler.time n, map fst (Euler.trajectory m L n),
                    map snd (Euler.trajectory m L n))
      | None => StillLooping (Euler.state_at m L (k + fuel))
      end.
Proof.
  induction fuel as [| fuel IH]; intros k.
  - cbn [drain_loop seq find]. unfold Euler.looping. cbn [Euler.state_at ds_h].
    destruct (Py.gt _ H_FINAL); cbn [negb]; [now rewrite Nat.add_0_r | reflexivity].
  - cbn [drain_loop]. rewrite drain_body_state_at, IH.
    change (seq k (S (S fuel))) with (k :: seq (S k) (S fuel)). cbn [find].
    unfold Euler.looping at 2. cbn [Euler.state_at ds_h].
    destruct (Py.gt _ H_FINAL); cbn [negb]; [| reflexivity].
    now rewrite Nat.add_succ_r.
Qed.

Lemma simulate_drain_time_run (fuel : nat) (L : float) :
  simulate_drain_time m fuel L = Euler.run m fuel L.
Proof. exact (drain_loop_from L fuel 0). Qed.

(** [find] on a range gives the first index that passes the test. *)
Lemma find_seq_first (p : nat -> bool) (len : nat) :
  forall k n, find p (seq k len) = Some n ->
    k <= n < k + len /\ p n = true /\ forall j, k <= j < n -> p j = false.
Proof.
  induction len as [| len IH]; intros k n; cbn [seq find]; [discriminate|].
  destruct (p k) eqn:Hk.
  - intros [= <-]. repeat split; [lia | lia | exact Hk | lia].
  - intros H. apply IH in H as (Hn & Hp & Hbefore). repeat split; [lia | lia | exact Hp |].
    intros j Hj. destruct (Nat.eq_dec j k) as [-> | Hne]; [exact Hk | apply Hbefore; lia].
Qed.

Lemma find_seq_none (p : nat -> bool) (k len : nat) :
  find p (seq k len) = None -> forall j, k <= j < k + len -> p j = false.
Proof.
  intros H j Hj. apply (find_none _ _ H). apply in_seq. lia.
Qed.

(** The step at which a run stops is the first at which the height is not
    above [H_FINAL]. *)
Lemma stop_step_first (L : float) (fuel n : nat) :
  Euler.stop_step m L fuel = Some n ->
  n <= fuel /\ Euler.looping m L n = false /\
  forall k, k < n -> Euler.looping m L k = true.
Proof.
  unfold Euler.stop_step. intros H. apply find_seq_first in H as (Hn & Hp & Hbefore).
  repeat split; [lia | now apply negb_true_iff in Hp |].
  intros k Hk. specialize (Hbefore k ltac:(lia)). now apply negb_false_iff in Hbefore.
Qed.

Lemma stop_step_none (L : float) (fuel : nat) :
  Euler.stop_step m L fuel = None <-> forall k, k <= fuel -> Euler.looping m L k = true.
Proof.
  unfold Euler.stop_step. split.
  - intros H k Hk. pose proof (find_seq_none _ _ _ H k ltac:(lia)) as Hf.
    now apply negb_false_iff in Hf.
  - intros H. destruct (find _ _) as [n |] eqn:Hfind; [| reflexivity].
    apply find_seq_first in Hfind as (Hn & Hp & _).
    rewrite H in Hp by lia. discriminate.
Qed.

(** A run that reaches a height not above [H_FINAL] returns, given the steps. *)
Lemma simulate_drain_time_returns (L : float) (fuel n : nat) :
  n <= fuel -> Euler.looping m L n = false ->
  exists r, simulate_drain_time m fuel L = Returned r.
Proof.
  intros Hn Hstop. rewrite simulate_drain_time_run. unfold Euler.run.
  destruct (Euler.stop_step m L fuel) as [n' |] eqn:Hs; [eexists; reflexivity |].
  rewrite stop_step_none in Hs. rewrite Hs in Hstop by exact Hn. discriminate.
Qed.

End Simulator.

Section SimulatorClaims.
Import ProperFluidSim.

(** C4: a run of the simulator is the forward-Euler recurrence of the
    specification.  It starts from [H_INITIAL] at time 0; while the height is
    above [H_FINAL] it takes away [(A_TUBE / A_TANK) * v * DT], with [v] the
    solver's velocity at the current height, adds [DT] to the time and records
    the time and the height; the step that ends the run is taken in full, so
    the last height recorded is the first that is not above [H_FINAL]; the
    total time returned is the time accumulated. *)
Theorem drain_run_is_forward_euler (m : Py.libm) (fuel : nat) (L : float) :
  simulate_drain_time m fuel L = Euler.run m fuel L /\
  match simulate_drain_time m fuel L with
  | Returned (total_time, times, heights) =>
      exists n,
        n <= fuel /\
        (forall k, k < n -> Py.gt (Euler.height m L k) H_FINAL = true) /\
        Py.gt (Euler.height m L n) H_FINAL = false /\
        combine times heights = Euler.trajectory m L n /\
        List.length times = n /\ List.length heights = n /\
        total_time = Euler.time n
  | StillLooping st =>
      st = Euler.state_at m L fuel /\
      forall k, k <= fuel -> Py.gt (Euler.height m L k) H_FINAL = true
  end.
Proof.
  split; [apply simulate_drain_time_run |].
  rewrite simulate_drain_time_run. unfold Euler.run.
  destruct (Euler.stop_step m L fuel) as [n |] eqn:Hstop.
  - apply stop_step_first in Hstop as (Hn & Hlast & Hbefore).
    exists n. repeat split; try assumption.
    + generalize (Euler.trajectory m L n). intros l.
      induction l as [| [t h] l IH]; [reflexivity | cbn; now rewrite IH].
    + unfold Euler.trajectory. now rewrite !length_map, length_seq.
    + unfold Euler.trajectory. now rewrite !length_map, length_seq.
  - split; [reflexivity |]. now apply stop_step_none.
Qed.

(** The first three steps above a tube of a kilometre. *)
Example three_steps_long_tube (m : Py.libm) :
  simulate_drain_time m 3 1000 =
    StillLooping
      (DrainState 0.099999965494552132 0.029999999999999999
         [0.099999988498182729; 0.099999976996366771; 0.099999965494552132]
         [0.01; 0.02; 0.029999999999999999]).
Proof. vm_compute. reflexivity. Qed.

(** ** No cap on the number of steps *)

(** Above a tube of [1e300] metres the solver's velocity is zero. *)
Lemma solver_velocity_1e300 (m : Py.libm) :
  calculate_velocity_and_friction m H_INITIAL 1e300 default_tol default_max_iterations
    = (0, 64000000).
Proof. vm_compute. reflexivity. Qed.

Lemma height_1e300 (m : Py.libm) (k : nat) : Euler.height m 1e300 k = H_INITIAL.
Proof.
  induction k as [| k IH]; [reflexivity |].
  cbn [Euler.height]. rewrite IH. unfold Euler.delta_h, Euler.solver_velocity.
  rewrite solver_velocity_1e300. vm_compute. reflexivity.
Qed.

Lemma looping_1e300 (m : Py.libm) (k : nat) : Euler.looping m 1e300 k = true.
Proof. unfold Euler.looping. rewrite height_1e300. vm_compute. reflexivity. Qed.

(** C5, as stated, fails: the loop of the simulator has no cap and raises
    nothing.  Above a tube of [1e300] metres the height stays at [H_INITIAL]
    and the simulator returns after no number of steps, whatever the C
    library. *)
Lemma drain_loops_forever_1e300 :
  ~ (exists (m : Py.libm) (fuel : nat) r, simulate_drain_time m fuel 1e300 = Returned r).
Proof.
  intros (m & fuel & r & H). rewrite simulate_drain_time_run in H. unfold Euler.run in H.
  destruct (Euler.stop_step m 1e300 fuel) as [n |] eqn:Hstop; [| discriminate].
  apply stop_step_first in Hstop as (_ & Hlast & _).
  rewrite looping_1e300 in Hlast. discriminate.
Qed.

(** C5, amended: the loop of the simulator has no cap of its own.  As long as
    the heights stay above [H_FINAL] it goes on, whatever the number of steps
    allowed, in the state the recurrence gives; it stops only by returning. *)
Theorem drain_loop_has_no_cap (m : Py.libm) (L : float) (fuel : nat) :
  (forall k, k <= fuel -> Py.gt (Euler.height m L k) H_FINAL = true) ->
  simulate_drain_time m fuel L = StillLooping (Euler.state_at m L fuel).
Proof.
  intros H. rewrite simulate_drain_time_run. unfold Euler.run.
  apply stop_step_none in H. now rewrite H.
Qed.

Lemma drain_loop_has_no_cap_witness :
  (forall k, k <= 1000 -> Py.gt (Euler.height Py.no_libm 1e300 k) H_FINAL = true) /\
  simulate_drain_time Py.no_libm 1000 1e300
    = StillLooping (Euler.state_at Py.no_libm 1e300 1000).
Proof.
  split.
  - intros k _. apply looping_1e300.
  - apply (drain_loop_has_no_cap Py.no_libm 1e300 1000).
    intros k _. apply looping_1e300.
Defined.

(** ** Heights do not rise *)

Lemma delta_h_nonneg (m : Py.libm) (h L : float) :
  (0 <=? Euler.solver_velocity m h L) = true -> (0 <=? Euler.delta_h m h L) = true.
Proof.
  intros Hv. unfold Euler.delta_h.
  apply Binary64.mul_nonneg_r; [exact DT_positive |].
  apply Binary64.mul_nonneg_l; [exact area_ratio_positive | exact Hv].
Qed.

(** From a height below infinity, steps at velocities that are at least zero
    give heights of which none is above the one before. *)
Lemma heights_non_increasing (m : Py.libm) (L : float) (n : nat) :
  forall j,
    (Euler.height m L j <? infinity) = true ->
    (forall k, j <= k < j + n ->
       (0 <=? Euler.solver_velocity m (Euler.height m L k) L) = true) ->
    Euler.non_increasing (Euler.height m L j) (map (Euler.height m L) (seq (S j) n)).
Proof.
  induction n as [| n IH]; intros j Hfin Hv; cbn [seq map Euler.non_increasing]; [exact I |].
  assert (Hle : (Euler.height m L (S j) <=? Euler.height m L j) = true).
  { cbn [Euler.height]. apply Binary64.sub_le; [exact Hfin |].
    apply delta_h_nonneg, Hv. lia. }
  split; [exact Hle |].
  apply IH; [exact (Binary64.leb_below_infinity _ _ Hle Hfin) |].
  intros k Hk. apply Hv. lia.
Qed.

Lemma recorded_heights_run (m : Py.libm) (L : float) (fuel : nat) :
  exists n,
    Euler.recorded_heights (Euler.run m fuel L) = map (Euler.height m L) (seq 1 n) /\
    forall k, k < n -> Euler.looping m L k = true.
Proof.
  unfold Euler.run. destruct (Euler.stop_step m L fuel) as [n |] eqn:Hstop.
  - exists n. apply stop_step_first in Hstop as (_ & _ & Hbefore).
    split; [| exact Hbefore].
    cbn [Euler.recorded_heights]. unfold Euler.trajectory. now rewrite map_map.
  - exists fuel. rewrite stop_step_none in Hstop.
    split; [| intros k Hk; apply Hstop; lia].
    cbn [Euler.recorded_heights Euler.state_at ds_heights].
    unfold Euler.trajectory. now rewrite map_map.
Qed.

(** C6: in a run in which the solver's velocity is at least zero at every
    height it is called at, every height recorded is at most the one before
    it, the first at most [H_INITIAL]. *)
Theorem heights_never_rise (m : Py.libm) (L : float) (fuel : nat) :
  (forall h,
     In h (H_INITIAL :: Euler.recorded_heights (simulate_drain_time m fuel L)) ->
     Py.gt h H_FINAL = true ->
     (0 <=? Euler.solver_velocity m h L) = true) ->
  Euler.non_increasing H_INITIAL
    (Euler.recorded_heights (simulate_drain_time m fuel L)).
Proof.
  rewrite simulate_drain_time_run.
  destruct (recorded_heights_run m L fuel) as (n & -> & Hloop). intros Hv.
  apply (heights_non_increasing m L n 0); [vm_compute; reflexivity |].
  intros k Hk. apply Hv; [| apply Hloop; lia].
  destruct k as [| k]; [now left | right].
  apply in_map, in_seq. lia.
Qed.

Lemma heights_never_rise_witness :
  (forall h,
     In h (H_INITIAL :: Euler.recorded_heights (simulate_drain_time Py.no_libm 3 1000)) ->
     Py.gt h H_FINAL = true ->
     (0 <=? Euler.solver_velocity Py.no_libm h 1000) = true) /\
  Euler.non_increasing H_INITIAL
    (Euler.recorded_heights (simulate_drain_time Py.no_libm 3 1000)).
Proof.
  assert (Hv : forall h,
    In h (H_INITIAL :: Euler.recorded_heights (simulate_drain_time Py.no_libm 3 1000)) ->
    Py.gt h H_FINAL = true ->
    (0 <=? Euler.solver_velocity Py.no_libm h 1000) = true).
  { intros h Hin _. rewrite three_steps_long_tube in Hin.
    cbn [Euler.recorded_heights ds_heights In] in Hin.
    destruct Hin as [<- | [<- | [<- | [<- | []]]]]; vm_compute; reflexivity. }
  split; [exact Hv |].
  apply (heights_never_rise Py.no_libm 1000 3). exact Hv.
Defined.

End SimulatorClaims.

(** * The simplified discharge model *)

Section Discharge.
Import DischargeModel.

(** C10: in the loop of [drain_time] nothing checks that the height is at least
    the head loss before the square root is taken.  At the first step of
    [drain_time(0.2)], at [h = 0.08], the head loss is above the height, the
    number under the square root is negative, [v_actual] is a NaN, and
    [drain_time] returns [0.01] as the drain time, without an error. *)
Theorem negative_radicand_unguarded (m : Py.libm) (fuel : nat) :
  (H <? head_loss m 0.2 H) = true /\
  (v_actual_radicand m 0.2 H <? 0) = true /\
  is_nan (v_actual m 0.2 H) = true /\
  drain_time m (S fuel) 0.2 = Returned 0.01.
Proof.
  repeat split; try (vm_compute; reflexivity).
  destruct fuel; vm_compute; reflexivity.
Qed.

(** The numbers of that step. *)
Example first_step_of_drain_time (m : Py.libm) :
  head_loss m 0.2 H = 12.964759257435313 /\
  v_actual_radicand m 0.2 H = -252.79897663088084.
Proof. split; vm_compute; reflexivity. Qed.

End Discharge.

(** * More facts about binary64 arithmetic: signs, NaN and infinity *)

Module Binary64Sign.
Import Rounding Binary64.
Local Open Scope Z_scope.

(** A number that is not below zero is a NaN or at least zero. *)
Lemma SFnot_negative_inv (x : spec_float) :
  SFltb x (S754_zero false) = false ->
  x = S754_nan \/ SFleb (S754_zero false) x = true.
Proof.
  destruct x as [[] | [] | | [] mx ex]; cbn; try discriminate; intros _;
    (now left) || (now right).
Qed.

(** A square root is never below zero. *)
Lemma SFsqrt_not_negative (x : spec_float) :
  SFltb (SF64sqrt x) (S754_zero false) = false.
Proof.
  destruct x as [[] | [] | | [] mx ex]; try reflexivity.
  unfold SF64sqrt, SFsqrt, SFsqrt_core_binary.
  set (m' := match _ - _ with Z0 => Zpos mx | Zpos _ => Z.shiftl (Zpos mx) _ | Zneg _ => 0 end).
  assert (Hm' : 0 <= m').
  { unfold m'. destruct (_ - _); [lia | apply Z.shiftl_nonneg; lia | lia]. }
  pose proof (Z.sqrtrem_spec m' Hm') as Hq.
  destruct (Z.sqrtrem m') as [q r].
  apply SFleb_not_gt, signed_false_nonneg, binary_round_aux_signed. lia.
Qed.

(** The square root of a number below zero is a NaN. *)
Lemma SFsqrt_negative (x : spec_float) :
  SFltb x (S754_zero false) = true -> SF64sqrt x = S754_nan.
Proof. destruct x as [[] | [] | | [] mx ex]; cbn; try discriminate; reflexivity. Qed.

(** An absolute value is below no number that is not above zero. *)
Lemma SFabs_not_below (x t : spec_float) :
  SFltb (S754_zero false) t = false -> SFltb (SFabs x) t = false.
Proof.
  destruct x as [[] | [] | | [] mx ex], t as [[] | [] | | [] mt et];
    cbn; try discriminate; reflexivity.
Qed.

Lemma SFeqb_refl_nan (x : spec_float) : SFeqb x x = false -> x = S754_nan.
Proof.
  destruct x as [[] | [] | | [] mx ex]; unfold SFeqb; cbn [SFcompare];
    try discriminate; try reflexivity;
    rewrite Z.compare_refl;
    change (Pos.compare_cont Eq mx mx) with (Pos.compare mx mx);
    rewrite Pos.compare_refl; discriminate.
Qed.

Lemma SFeqb_zero_inv (x : spec_float) :
  SFeqb x (S754_zero false) = true -> exists s, x = S754_zero s.
Proof.
  destruct x as [s | [] | | [] mx ex]; cbn; try discriminate. intros _. now exists s.
Qed.

Local Open Scope float_scope.

Lemma Prim2SF_nan : Prim2SF nan = S754_nan.
Proof. reflexivity. Qed.

(** [is_nan] holds of the NaN only. *)
Theorem is_nan_eq (x : float) : is_nan x = true -> x = nan.
Proof.
  unfold is_nan. rewrite FloatAxioms.eqb_spec. intros H.
  apply Prim2SF_inj. rewrite Prim2SF_nan. apply SFeqb_refl_nan.
  now destruct (SFeqb _ _).
Qed.

Theorem not_negative_cases (x : float) :
  (x <? 0) = false -> x = nan \/ (0 <=? x) = true.
Proof.
  rewrite ltb_spec, leb_spec, Prim2SF_zero. intros H.
  apply SFnot_negative_inv in H as [H | H]; [left | now right].
  apply Prim2SF_inj. now rewrite Prim2SF_nan.
Qed.

Theorem nonneg_not_negative (x : float) : (0 <=? x) = true -> (x <? 0) = false.
Proof. apply leb_not_gt. Qed.

(** Not below zero and not a NaN is at least zero. *)
Theorem not_negative_not_nan (x : float) :
  (x <? 0) = false -> is_nan x = false -> (0 <=? x) = true.
Proof.
  intros Hneg Hnan. apply not_negative_cases in Hneg as [-> | H]; [| exact H].
  discriminate Hnan.
Qed.

Theorem sqrt_not_negative (x : float) : (sqrt x <? 0) = false.
Proof. rewrite ltb_spec, sqrt_spec, Prim2SF_zero. apply SFsqrt_not_negative. Qed.

Theorem sqrt_negative (x : float) : (x <? 0) = true -> sqrt x = nan.
Proof.
  rewrite ltb_spec, Prim2SF_zero. intros H. apply Prim2SF_inj.
  rewrite sqrt_spec, Prim2SF_nan. now apply SFsqrt_negative.
Qed.

Theorem abs_not_below (x tol : float) : (0 <? tol) = false -> (abs x <? tol) = false.
Proof. rewrite !ltb_spec, abs_spec, Prim2SF_zero. apply SFabs_not_below. Qed.

(** NaN is absorbing. *)
Theorem mul_nan_r (x : float) : x * nan = nan.
Proof.
  apply Prim2SF_inj. rewrite mul_spec, Prim2SF_nan. now destruct (Prim2SF x) as [| | |].
Qed.

Theorem sub_nan_r (x : float) : x - nan = nan.
Proof.
  apply Prim2SF_inj. rewrite sub_spec, Prim2SF_nan. now destruct (Prim2SF x) as [| | |].
Qed.

Theorem add_nan_r (x : float) : x + nan = nan.
Proof.
  apply Prim2SF_inj. rewrite add_spec, Prim2SF_nan. now destruct (Prim2SF x) as [| | |].
Qed.

(** Products and quotients by positive finite numbers keep a number not below
    zero. *)
Theorem mul_not_negative_l (c x : float) :
  positive_finite c -> (x <? 0) = false -> (c * x <? 0) = false.
Proof.
  intros Hc Hx. apply not_negative_cases in Hx as [-> | Hx].
  - now rewrite mul_nan_r.
  - apply leb_not_gt, mul_nonneg_l; assumption.
Qed.

Theorem mul_not_negative_r (x c : float) :
  positive_finite c -> (x <? 0) = false -> (x * c <? 0) = false.
Proof.
  intros Hc Hx. apply not_negative_cases in Hx as [-> | Hx].
  - destruct Hc as (mc & ec & Hc).
    replace (nan * c) with nan; [reflexivity |].
    apply Prim2SF_inj. now rewrite mul_spec, Prim2SF_nan.
  - apply leb_not_gt, mul_nonneg_r; assumption.
Qed.

Theorem div_not_negative (x d : float) :
  positive_finite d -> (x <? 0) = false -> (x / d <? 0) = false.
Proof.
  intros Hd Hx. apply not_negative_cases in Hx as [-> | Hx].
  - replace (nan / d) with nan; [reflexivity |].
    apply Prim2SF_inj. now rewrite div_spec, Prim2SF_nan.
  - apply leb_not_gt, div_nonneg; assumption.
Qed.

(** Nothing is above infinity, and a NaN is below nothing. *)
Theorem infinity_not_below (t : float) : (infinity <? t) = false.
Proof.
  rewrite ltb_spec, Prim2SF_infinity. now destruct (Prim2SF t) as [[] | [] | | [] mt et].
Qed.

Theorem nan_not_below (t : float) : (nan <? t) = false.
Proof. rewrite ltb_spec, Prim2SF_nan. reflexivity. Qed.

Theorem infinity_mul_positive (c : float) : positive_finite c -> infinity * c = infinity.
Proof.
  intros (mc & ec & Hc). apply Prim2SF_inj.
  now rewrite mul_spec, Prim2SF_infinity, Hc.
Qed.

(** A zero times a positive finite number is a zero, and taking a zero away
    from a number above a positive one leaves it as it is. *)
Theorem mul_zero_r (c x : float) :
  positive_finite c -> (x =? 0) = true -> (c * x =? 0) = true.
Proof.
  intros (mc & ec & Hc). rewrite !FloatAxioms.eqb_spec, mul_spec, Prim2SF_zero, Hc.
  intros H. apply SFeqb_zero_inv in H as [s ->]. reflexivity.
Qed.

Theorem mul_zero_l (x c : float) :
  positive_finite c -> (x =? 0) = true -> (x * c =? 0) = true.
Proof.
  intros (mc & ec & Hc). rewrite !FloatAxioms.eqb_spec, mul_spec, Prim2SF_zero, Hc.
  intros H. apply SFeqb_zero_inv in H as [s ->]. reflexivity.
Qed.

Theorem sub_zero_r (h d c : float) :
  positive_finite c -> (c <? h) = true -> (d =? 0) = true -> h - d = h.
Proof.
  intros (mc & ec & Hc). rewrite ltb_spec, FloatAxioms.eqb_spec, Prim2SF_zero, Hc.
  intros Hh Hd. apply SFeqb_zero_inv in Hd as [s Hd].
  apply Prim2SF_inj. rewrite sub_spec, Hd.
  destruct (Prim2SF h) as [[] | [] | | [] mh eh]; cbn in Hh; try discriminate; reflexivity.
Qed.

End Binary64Sign.

(** * Lower bounds on products, quotients and differences *)

Module Binary64Magnitude.
Import Rounding Binary64 Magnitude.
Local Open Scope Z_scope.

(** Shifting right divides the mantissa, whatever the flags. *)
Lemma shr_m_div (mrs : shr_record) (e n : Z) :
  0 <= shr_m mrs -> 0 <= n ->
  shr_m (fst (shr mrs e n)) = shr_m mrs / 2 ^ n /\ snd (shr mrs e n) = e + n.
Proof.
  intros Hm Hn. unfold shr. destruct n as [| p | p]; cbn [fst snd]; try lia.
  - rewrite Z.div_1_r. split; [reflexivity | lia].
  - split; [| reflexivity].
    change (Zpos p) with (0 + Zpos p).
    apply (iter_pos_invariant shr_1 (fun k r => shr_m r = shr_m mrs / 2 ^ k));
      [| lia | now rewrite Z.div_1_r].
    intros k [m r s] Hk Hr. cbn [shr_m] in Hr.
    assert (Hpow : 0 < 2 ^ k) by (apply Z.pow_pos_nonneg; lia).
    assert (Hm_nonneg : 0 <= m) by (subst m; apply Z.div_pos; lia).
    rewrite Z.pow_add_r, Z.pow_1_r, <- Z.div_div, <- Hr by lia.
    unfold shr_1. destruct m as [| [q | q |] | q]; cbn [shr_m]; [| | | | lia].
    + reflexivity.
    + pose proof (Pos2Z.inj_xI q). Z.div_mod_to_equations. lia.
    + pose proof (Pos2Z.inj_xO q). Z.div_mod_to_equations. lia.
    + reflexivity.
Qed.

(** [binary_round_aux] on a positive mantissa shifted right by [n >= 0] bits,
    whatever is known of the bits already lost: the mantissa is the quotient
    or the next number. *)
Lemma binary_round_aux_any (s : bool) (M : positive) (E : Z) (l : location) :
  let e' := fexp64 (Zpos (digits2_pos M) + E) in
  let n := e' - E in
  let m1 := Zpos M / 2 ^ n in
  0 <= n ->
  exists mr,
    m1 <= mr <= m1 + 1 /\
    rounded s e' mr (binary_round_aux prec emax s (Zpos M) E l).
Proof.
  intros e' n m1 Hn.
  assert (Hemin : -1074 <= e') by (unfold e'; rewrite fexp64_eq; lia).
  assert (Hm1 : 0 <= m1 < 2 ^ 53).
  { assert (Hpow : 0 < 2 ^ n) by (apply Z.pow_pos_nonneg; lia).
    split; [apply Z.div_pos; lia|].
    apply Z.div_lt_upper_bound; [lia|].
    pose proof (digits2_bounds M) as [_ Hhi].
    rewrite <- Z.pow_add_r by lia.
    eapply Z.lt_le_trans; [exact Hhi|].
    apply Z.pow_le_mono_r; [lia|]. unfold n, e'. rewrite fexp64_eq. lia. }
  unfold binary_round_aux, shr_fexp at 1. cbn [Zdigits2]. fold e'. fold n.
  destruct (shr_m_div (shr_record_of_loc (Zpos M) l) E n) as [Hdiv He];
    [destruct l as [| []]; cbn; lia | lia |].
  replace (shr_m (shr_record_of_loc (Zpos M) l)) with (Zpos M) in Hdiv
    by (destruct l as [| []]; reflexivity).
  destruct (shr (shr_record_of_loc (Zpos M) l) E n) as [mrs e1].
  cbn [fst snd] in Hdiv, He. subst e1. replace (E + n) with e' by (unfold n; lia).
  fold m1 in Hdiv.
  set (mr := round_nearest_even (shr_m mrs) (loc_of_shr_record mrs)).
  assert (Hmr : m1 <= mr <= m1 + 1).
  { unfold mr, round_nearest_even. rewrite Hdiv.
    destruct (loc_of_shr_record mrs) as [| []]; try lia. destruct (Z.even m1); lia. }
  exists mr. split; [exact Hmr |].
  apply renormalize; [exact Hemin | lia].
Qed.

(** A rounded mantissa that is not zero gives a number of exponent [e] at least. *)
Lemma rounded_at_least (s : bool) (e mr : Z) (x : spec_float) :
  rounded s e mr x -> 1 <= mr -> at_least s e x.
Proof.
  intros [Hz | q Hq Hlt He | q Hc Hq He | Hpos Hov] Hmr.
  - lia.
  - right. exists q, e. split; [reflexivity | lia].
  - right. exists q, (e + 1). split; [reflexivity | lia].
  - now left.
Qed.

Lemma at_least_weaken (s : bool) (k k' : Z) (x : spec_float) :
  at_least s k x -> k' <= k -> at_least s k' x.
Proof.
  intros [-> | (m & e & -> & He)] Hk; [now left |].
  right. exists m, e. split; [reflexivity | lia].
Qed.

(** A binary64 number whose exponent is above the least one is normal. *)
Lemma normal_digits (m : positive) (e : Z) :
  fexp64 (Zpos (digits2_pos m) + e) = e -> -1074 < e -> Zpos (digits2_pos m) = 53.
Proof. rewrite fexp64_eq. lia. Qed.

Lemma normal_bounds (m : positive) (e : Z) :
  fexp64 (Zpos (digits2_pos m) + e) = e -> -1074 < e ->
  2 ^ 52 <= Zpos m < 2 ^ 53.
Proof.
  intros Hcan He. pose proof (normal_digits m e Hcan He) as Hd.
  pose proof (digits2_bounds m) as H. rewrite Hd in H. exact H.
Qed.

(** The exponent of a mantissa with [d] digits at least. *)
Lemma digits2_lower (p : positive) (d : Z) :
  0 <= d -> 2 ^ d <= Zpos p -> d + 1 <= Zpos (digits2_pos p).
Proof.
  intros Hd Hp. pose proof (digits2_bounds p) as [_ Hhi].
  assert (H : 2 ^ d < 2 ^ Zpos (digits2_pos p)) by lia.
  apply Z.pow_lt_mono_r_iff in H; lia.
Qed.

(** A mantissa of [d >= 53] digits rounds to a number that is not zero, of
    exponent [E + d - 53] at least, when that is an exponent of the format. *)
Lemma binary_round_aux_large (s : bool) (M : positive) (E : Z) (l : location) :
  53 <= Zpos (digits2_pos M) -> -1074 <= E ->
  at_least s (Zpos (digits2_pos M) + E - 53) (binary_round_aux prec emax s (Zpos M) E l).
Proof.
  intros Hd HE.
  pose proof (binary_round_aux_any s M E l) as H. cbv zeta in H.
  assert (He' : fexp64 (Zpos (digits2_pos M) + E) = Zpos (digits2_pos M) + E - 53)
    by (rewrite fexp64_eq; lia).
  rewrite He' in H.
  destruct H as (mr & Hmr & Hr); [lia |].
  apply (rounded_at_least _ _ _ _ Hr).
  assert (1 <= Zpos M / 2 ^ (Zpos (digits2_pos M) + E - 53 - E)); [| lia].
  replace (Zpos (digits2_pos M) + E - 53 - E) with (Zpos (digits2_pos M) - 53) by lia.
  apply Z.div_le_lower_bound; [apply Z.pow_pos_nonneg; lia |]. rewrite Z.mul_1_r.
  pose proof (digits2_bounds M) as [Hlo _].
  eapply Z.le_trans; [| exact Hlo]. apply Z.pow_le_mono_r; lia.
Qed.

(** The product of two normal numbers. *)
Lemma SFmul_normal (sx sy : bool) (mx my : positive) (ex ey : Z) :
  fexp64 (Zpos (digits2_pos mx) + ex) = ex -> -1074 < ex ->
  fexp64 (Zpos (digits2_pos my) + ey) = ey -> -1074 < ey ->
  -1074 <= ex + ey ->
  at_least (xorb sx sy) (ex + ey + 52)
    (SF64mul (S754_finite sx mx ex) (S754_finite sy my ey)).
Proof.
  intros Hx Hex Hy Hey Hsum.
  pose proof (normal_bounds mx ex Hx Hex) as [Hmx _].
  pose proof (normal_bounds my ey Hy Hey) as [Hmy _].
  unfold SF64mul, SFmul.
  assert (Hd : 105 <= Zpos (digits2_pos (mx * my))).
  { apply (digits2_lower _ 104); [lia |].
    rewrite Pos2Z.inj_mul. change (2 ^ 104) with (2 ^ 52 * 2 ^ 52).
    apply Z.mul_le_mono_nonneg; lia. }
  eapply at_least_weaken;
    [apply binary_round_aux_large; [lia | exact Hsum] | lia].
Qed.

(** The quotient of two normal numbers. *)
Lemma SFdiv_normal (sx sy : bool) (mx my : positive) (ex ey : Z) :
  fexp64 (Zpos (digits2_pos mx) + ex) = ex -> -1074 < ex ->
  fexp64 (Zpos (digits2_pos my) + ey) = ey -> -1074 < ey ->
  -1074 <= ex - ey - 53 ->
  at_least (xorb sx sy) (ex - ey - 53)
    (SF64div (S754_finite sx mx ex) (S754_finite sy my ey)).
Proof.
  intros Hx Hex Hy Hey Hdiff.
  pose proof (normal_bounds mx ex Hx Hex) as [Hmx Hmx'].
  pose proof (normal_bounds my ey Hy Hey) as [Hmy Hmy'].
  pose proof (normal_digits mx ex Hx Hex) as Hdx.
  pose proof (normal_digits my ey Hy Hey) as Hdy.
  unfold SF64div, SFdiv, SFdiv_core_binary. cbn [Zdigits2].
  rewrite Hdx, Hdy.
  replace (53 + ex - (53 + ey)) with (ex - ey) by lia.
  assert (He' : Z.min (fexp64 (ex - ey)) (ex - ey) = ex - ey - 53)
    by (rewrite fexp64_eq; lia).
  rewrite He'. replace (ex - ey - (ex - ey - 53)) with 53 by lia.
  rewrite Z.shiftl_mul_pow2 by lia.
  pose proof (Z.div_eucl_eq (Zpos mx * 2 ^ 53) (Zpos my) ltac:(lia)) as Heq.
  pose proof (Z.mod_pos_bound (Zpos mx * 2 ^ 53) (Zpos my) ltac:(lia)) as Hmod.
  unfold Z.modulo in Hmod.
  destruct (Z.div_eucl (Zpos mx * 2 ^ 53) (Zpos my)) as [q r].
  assert (Hq : 2 ^ 52 <= q) by nia.
  destruct q as [| Q | Q]; [lia | | lia].
  assert (Hd : 53 <= Zpos (digits2_pos Q)) by (apply (digits2_lower Q 52); lia).
  eapply at_least_weaken;
    [apply binary_round_aux_large; [exact Hd | exact Hdiff] | lia].
Qed.

(** A small positive number less a normal number of larger exponent. *)
Lemma SFsub_small_large (ma mb : positive) (ea eb : Z) :
  fexp64 (Zpos (digits2_pos ma) + ea) = ea ->
  fexp64 (Zpos (digits2_pos mb) + eb) = eb -> eb <= 971 ->
  -1074 <= ea -> ea + 2 <= eb ->
  at_least true (eb - 1)
    (SF64sub (S754_finite false ma ea) (S754_finite false mb eb)).
Proof.
  intros Ha Hb Hb971 Hea Hgap.
  pose proof (canonical_lt ma ea Ha) as Hma.
  pose proof (normal_bounds mb eb Hb ltac:(lia)) as [Hmb _].
  unfold SF64sub, SFsub. replace (Z.min ea eb) with ea by lia.
  pose proof (shl_align_val ma ea ea ltac:(lia)) as HMa.
  pose proof (shl_align_val mb eb ea ltac:(lia)) as HMb.
  set (Ma := fst (shl_align ma ea ea)) in *.
  set (Mb := fst (shl_align mb eb ea)) in *.
  rewrite Z.sub_diag, Z.pow_0_r, Z.mul_1_r in HMa.
  cbn [cond_Zopp].
  assert (Hpow : 2 ^ (eb - ea) = 2 * 2 ^ (eb - 1 - ea)).
  { replace (eb - ea) with (Z.succ (eb - 1 - ea)) by lia. apply Z.pow_succ_r. lia. }
  assert (Hp4 : 4 <= 2 ^ (eb - ea)).
  { change 4 with (2 ^ 2). apply Z.pow_le_mono_r; lia. }
  assert (Hbig : 2 ^ 52 * 2 ^ (eb - 1 - ea) <= Zpos Mb - Zpos Ma) by nia.
  destruct (Zpos Ma - Zpos Mb) as [| M | M] eqn:HM; [nia | nia |].
  cbn [binary_normalize].
  assert (Htarget : fexp64 (Zpos (digits2_pos 4503599627370496) + (eb - 1)) = eb - 1).
  { change (Zpos (digits2_pos 4503599627370496)) with 53. rewrite fexp64_eq. lia. }
  destruct (round_above_magnitude true M 4503599627370496 ea (eb - 1) Htarget)
    as [-> | (q & e & -> & He)]; [lia | lia | | now left |].
  - change (Zpos 4503599627370496) with (2 ^ 52). lia.
  - right. exists q, e. split; [reflexivity | lia].
Qed.

(** A number at least a positive finite one has at least its exponent. *)
Lemma SFleb_at_least (mc : positive) (ec : Z) (x : spec_float) :
  SFleb (S754_finite false mc ec) x = true -> at_least false ec x.
Proof.
  destruct x as [[] | [] | | [] mx ex]; cbn; try discriminate.
  - intros _. now left.
  - intros H. right. exists mx, ex. split; [reflexivity |].
    destruct (Z.compare_spec ec ex); [lia | lia | discriminate].
Qed.

(** A negative number that is not zero is below zero. *)
Lemma at_least_negative (k : Z) (x : spec_float) :
  at_least true k x -> SFltb x (S754_zero false) = true.
Proof. intros [-> | (m & e & -> & _)]; reflexivity. Qed.

End Binary64Magnitude.

(** * More on the solvers *)

Section SolverBudget.
Import ProperFluidSim.
Variable m : Py.libm.

(** Once the loop has left by [break], iterations in reserve change nothing. *)
Lemma friction_loop_more (n k : nat) (h L tol : float) :
  forall f v r,
    friction_loop m n h L tol f v = (Break, r) ->
    friction_loop m (n + k) h L tol f v = (Break, r).
Proof.
  induction n as [| n IH]; intros f v r; cbn [friction_loop Nat.add].
  - discriminate.
  - destruct (abs _ <? tol); [trivial | apply IH].
Qed.

Lemma darcy_loop_more (n k : nat) (h L epsilon D K rho mu tol : float) :
  forall f r,
    IterativeDarcy.darcy_loop m n h L epsilon D K rho mu tol f = Ok r ->
    IterativeDarcy.darcy_loop m (n + k) h L epsilon D K rho mu tol f = Ok r.
Proof.
  induction n as [| n IH]; intros f r; cbn [IterativeDarcy.darcy_loop Nat.add].
  - discriminate.
  - destruct (abs _ <? tol); [trivial | apply IH].
Qed.

(** The loop of [iterative_darcy_reynolds] from iteration [j] on, in terms of
    the iterates. *)
Lemma darcy_loop_from (h L epsilon D K rho mu tol : float) (n : nat) :
  forall j,
    IterativeDarcy.darcy_loop m n h L epsilon D K rho mu tol
      (DarcyIterates.friction m h L epsilon D K rho mu j) =
    match find (DarcyIterates.converges_at m h L epsilon D K rho mu tol) (seq j n) with
    | Some k =>
        Ok (DarcyIterates.reynolds_of h L D K rho mu
              (DarcyIterates.friction m h L epsilon D K rho mu k),
            DarcyIterates.friction m h L epsilon D K rho mu (S k))
    | None => RuntimeError IterativeDarcy.not_converged
    end.
Proof.
  induction n as [| n IH]; intros j; cbn [IterativeDarcy.darcy_loop seq find].
  - reflexivity.
  - unfold DarcyIterates.converges_at at 1. cbn [DarcyIterates.friction].
    fold (DarcyIterates.reynolds_of h L D K rho mu
            (DarcyIterates.friction m h L epsilon D K rho mu j)).
    destruct (abs _ <? tol); [reflexivity |].
    exact (IH (S j)).
Qed.

(** The velocity a call returns is a square root. *)
Lemma returned_velocity_not_negative (h L tol : float) (max_iterations : Z) :
  (fst (calculate_velocity_and_friction m h L tol max_iterations) <? 0) = false.
Proof.
  unfold calculate_velocity_and_friction.
  destruct (solve m h L tol max_iterations) as [x [v f]] eqn:Hsolve. cbn [fst snd].
  unfold solve in Hsolve.
  rewrite (friction_loop_velocity m _ h L tol _ _ _ _ _ eq_refl Hsolve).
  apply Binary64Sign.sqrt_not_negative.
Qed.

(** With a tolerance that is not above zero no test passes. *)
Lemma friction_loop_exhausted (n : nat) (h L tol : float) :
  (0 <? tol) = false ->
  forall f v, fst (friction_loop m n h L tol f v) = Exhausted.
Proof.
  intros Htol. induction n as [| n IH]; intros f v; cbn [friction_loop]; [reflexivity |].
  rewrite Binary64Sign.abs_not_below by exact Htol. apply IH.
Qed.

Lemma darcy_loop_raises (n : nat) (h L epsilon D K rho mu tol : float) :
  (0 <? tol) = false ->
  forall f,
    IterativeDarcy.darcy_loop m n h L epsilon D K rho mu tol f
      = RuntimeError IterativeDarcy.not_converged.
Proof.
  intros Htol. induction n as [| n IH]; intros f; cbn [IterativeDarcy.darcy_loop];
    [reflexivity |].
  rewrite Binary64Sign.abs_not_below by exact Htol. apply IH.
Qed.

End SolverBudget.

Section SolverExtras.
Import ProperFluidSim.

(** X1: a call of [calculate_velocity_and_friction] that has converged returns
    the same pair with any larger [max_iterations]. *)
Theorem converged_call_is_stable (m : Py.libm) (h L tol : float)
  (max_iterations more : Z) (v f : float) :
  solve m h L tol max_iterations = (Break, (v, f)) ->
  (max_iterations <= more)%Z ->
  solve m h L tol more = (Break, (v, f)) /\
  calculate_velocity_and_friction m h L tol more = (v, f).
Proof.
  intros Hsolve Hle.
  assert (H : solve m h L tol more = (Break, (v, f))).
  { unfold solve in *. unfold Py.range in *.
    replace (Z.to_nat more)
      with (Z.to_nat max_iterations + (Z.to_nat more - Z.to_nat max_iterations))%nat by lia.
    now apply friction_loop_more. }
  split; [exact H |]. unfold calculate_velocity_and_friction. now rewrite H.
Qed.

Lemma converged_call_is_stable_witness :
  solve Py.no_libm 0.1 1000 1e-6 100
    = (Break, (0.0019326753348702609, 4.1706188165764901)) /\
  (100 <= 100000)%Z /\
  solve Py.no_libm 0.1 1000 1e-6 100000
    = (Break, (0.0019326753348702609, 4.1706188165764901)) /\
  calculate_velocity_and_friction Py.no_libm 0.1 1000 1e-6 100000
    = (0.0019326753348702609, 4.1706188165764901).
Proof.
  split; [apply solve_long_tube |]. split; [lia |].
  apply (converged_call_is_stable Py.no_libm 0.1 1000 1e-6 100 100000);
    [apply solve_long_tube | lia].
Defined.

(** X2: a call of [iterative_darcy_reynolds] that has returned a pair returns
    the same pair with any larger [max_iter]. *)
Theorem darcy_result_is_stable (m : Py.libm) (h L epsilon D K rho mu : float)
  (max_iter more : Z) (tol Re f : float) :
  IterativeDarcy.iterative_darcy_reynolds m h L epsilon D K rho mu max_iter tol
    = Ok (Re, f) ->
  (max_iter <= more)%Z ->
  IterativeDarcy.iterative_darcy_reynolds m h L epsilon D K rho mu more tol
    = Ok (Re, f).
Proof.
  intros Hok Hle. unfold IterativeDarcy.iterative_darcy_reynolds, Py.range in *.
  replace (Z.to_nat more)
    with (Z.to_nat max_iter + (Z.to_nat more - Z.to_nat max_iter))%nat by lia.
  now apply darcy_loop_more.
Qed.

Lemma darcy_result_is_stable_witness :
  IterativeDarcy.iterative_darcy_reynolds
    Py.no_libm 0.001 0.2 0.0015 0.00794 1.5 1000 0.001 100 1e-6
    = Ok (451.35230795586472, 0.1417961066596744) /\
  (100 <= 100000)%Z /\
  IterativeDarcy.iterative_darcy_reynolds
    Py.no_libm 0.001 0.2 0.0015 0.00794 1.5 1000 0.001 100000 1e-6
    = Ok (451.35230795586472, 0.1417961066596744).
Proof.
  split; [apply darcy_laminar_call |]. split; [lia |].
  apply (darcy_result_is_stable Py.no_libm 0.001 0.2 0.0015 0.00794 1.5 1000 0.001
           100 100000 1e-6);
    [apply darcy_laminar_call | lia].
Defined.

(** X3: in a call of [iterative_darcy_reynolds] whose first iteration divides
    by no zero ([D] is not zero and neither is [1 + 0.02 * L / D + K]; on a
    zero divisor Python's own floats raise [ZeroDivisionError] there), the
    function returns from the first iteration that passes the tolerance test,
    with the Reynolds number of that iteration and the friction factor it
    computed, and raises its [RuntimeError] exactly when none of the
    [max_iter] iterations passes. *)
Theorem darcy_returns_first_converged (m : Py.libm) (h L epsilon D K rho mu : float)
  (max_iter : Z) (tol : float) :
  (D =? 0) = false ->
  (1 + 0.02 * L / D + K =? 0) = false ->
  IterativeDarcy.iterative_darcy_reynolds m h L epsilon D K rho mu max_iter tol =
    match find (DarcyIterates.converges_at m h L epsilon D K rho mu tol)
               (seq 0 (Z.to_nat max_iter)) with
    | Some k =>
        Ok (DarcyIterates.reynolds_of h L D K rho mu
              (DarcyIterates.friction m h L epsilon D K rho mu k),
            DarcyIterates.friction m h L epsilon D K rho mu (S k))
    | None => RuntimeError IterativeDarcy.not_converged
    end.
Proof.
  intros _ _.
  exact (darcy_loop_from m h L epsilon D K rho mu tol (Z.to_nat max_iter) 0).
Qed.

Lemma darcy_returns_first_converged_witness :
  (0.00794 =? 0) = false /\
  (1 + 0.02 * 0.2 / 0.00794 + 1.5 =? 0) = false /\
  find (DarcyIterates.converges_at Py.no_libm 0.001 0.2 0.0015 0.00794 1.5 1000 0.001 1e-6)
       (seq 0 (Z.to_nat 100)) = Some 10%nat /\
  IterativeDarcy.iterative_darcy_reynolds
    Py.no_libm 0.001 0.2 0.0015 0.00794 1.5 1000 0.001 100 1e-6 =
    match find (DarcyIterates.converges_at Py.no_libm 0.001 0.2 0.0015 0.00794 1.5
                  1000 0.001 1e-6)
               (seq 0 (Z.to_nat 100)) with
    | Some k =>
        Ok (DarcyIterates.reynolds_of 0.001 0.2 0.00794 1.5 1000 0.001
              (DarcyIterates.friction Py.no_libm 0.001 0.2 0.0015 0.00794 1.5 1000 0.001 k),
            DarcyIterates.friction Py.no_libm 0.001 0.2 0.0015 0.00794 1.5 1000 0.001 (S k))
    | None => RuntimeError IterativeDarcy.not_converged
    end.
Proof.
  split; [reflexivity |]. split; [vm_compute; reflexivity |].
  split; [vm_compute; reflexivity |].
  apply (darcy_returns_first_converged Py.no_libm 0.001 0.2 0.0015 0.00794 1.5 1000 0.001
           100 1e-6).
  - reflexivity.
  - vm_compute; reflexivity.
Defined.

(** X4: with a tolerance that is zero, negative or NaN, no iteration passes the
    test [abs(f_new - f) < tol]: the loop of [calculate_velocity_and_friction]
    runs out, and a call of [iterative_darcy_reynolds] whose first iteration
    divides by no zero ([D] is not zero and neither is [1 + 0.02 * L / D + K];
    on a zero divisor Python's own floats raise [ZeroDivisionError] there)
    raises its [RuntimeError]. *)
Theorem tolerance_must_be_positive (m : Py.libm) (h L epsilon D K rho mu : float)
  (max_iter : Z) (tol : float) :
  (0 <? tol) = false ->
  ((D =? 0) = false ->
   (1 + 0.02 * L / D + K =? 0) = false ->
   IterativeDarcy.iterative_darcy_reynolds m h L epsilon D K rho mu max_iter tol
     = RuntimeError IterativeDarcy.not_converged) /\
  fst (solve m h L tol max_iter) = Exhausted.
Proof.
  intros Htol. split.
  - intros _ _. now apply darcy_loop_raises.
  - now apply friction_loop_exhausted.
Qed.

Lemma tolerance_must_be_positive_witness :
  (0 <? 0) = false /\
  (0.00794 =? 0) = false /\
  (1 + 0.02 * 0.2 / 0.00794 + 1.5 =? 0) = false /\
  IterativeDarcy.iterative_darcy_reynolds
    Py.no_libm 0.001 0.2 0.0015 0.00794 1.5 1000 0.001 100 0
    = RuntimeError IterativeDarcy.not_converged /\
  fst (solve Py.no_libm 0.001 0.2 0 100) = Exhausted.
Proof.
  split; [reflexivity |]. split; [reflexivity |]. split; [vm_compute; reflexivity |].
  destruct (tolerance_must_be_positive Py.no_libm 0.001 0.2 0.0015 0.00794 1.5 1000 0.001
              100 0 eq_refl) as [Hraise Hout].
  split; [apply Hraise; [reflexivity | vm_compute; reflexivity] | exact Hout].
Defined.

(** X5: the velocity [calculate_velocity_and_friction] returns is never below
    zero: it is a NaN or at least zero, whatever the inputs and however the
    loop was left. *)
Theorem returned_velocity_is_never_negative (m : Py.libm) (h L tol : float)
  (max_iterations : Z) :
  let v := fst (calculate_velocity_and_friction m h L tol max_iterations) in
  (v <? 0) = false /\ (v = nan \/ (0 <=? v) = true).
Proof.
  pose proof (returned_velocity_not_negative m h L tol max_iterations) as H.
  split; [exact H |]. now apply Binary64Sign.not_negative_cases.
Qed.

End SolverExtras.

(** * More on the drain simulator *)

Section SimulatorExtras.
Import ProperFluidSim.

Lemma time_positive (k : nat) : (0 <? Euler.time (S k)) = true.
Proof.
  induction k as [| k IH]; [reflexivity |].
  change (Euler.time (S (S k))) with (Euler.time (S k) + DT).
  apply Binary64.add_pos; [exact IH | reflexivity].
Qed.

(** X6: when the solver's velocity at the current height is a NaN, the step
    records a NaN height and the loop of [simulate_drain_time] ends at its
    next test: the function returns the time of that step, with no error. *)
Theorem nan_velocity_ends_the_run (m : Py.libm) (L : float) (fuel : nat)
  (st : drain_state) :
  Py.gt (ds_h st) H_FINAL = true ->
  is_nan (Euler.solver_velocity m (ds_h st) L) = true ->
  drain_loop m (S fuel) L st =
    Returned (ds_total_time st + DT,
              ds_times st ++ [ds_total_time st + DT],
              ds_heights st ++ [nan]).
Proof.
  intros Hgt Hnan. apply Binary64Sign.is_nan_eq in Hnan.
  assert (Hbody : drain_body m L st =
            DrainState nan (ds_total_time st + DT)
              (ds_heights st ++ [nan]) (ds_times st ++ [ds_total_time st + DT])).
  { unfold drain_body. unfold Euler.solver_velocity in Hnan.
    destruct (calculate_velocity_and_friction m _ L _ _) as [v f].
    cbn [fst] in Hnan. subst v.
    rewrite Binary64Sign.mul_nan_r. change (nan * DT) with nan.
    now rewrite Binary64Sign.sub_nan_r. }
  cbn [drain_loop]. rewrite Hgt, Hbody. destruct fuel; reflexivity.
Qed.

(** A tube length below zero makes the first velocity a NaN (the C library
    answers NaN to NaN). *)
Lemma nan_velocity_ends_the_run_witness :
  Py.gt (ds_h drain_init) H_FINAL = true /\
  is_nan (Euler.solver_velocity Py.no_libm (ds_h drain_init) (-1)) = true /\
  simulate_drain_time Py.no_libm 1 (-1) = Returned (0 + DT, [0 + DT], [nan]).
Proof.
  split; [reflexivity |]. split; [vm_compute; reflexivity |].
  apply (nan_velocity_ends_the_run Py.no_libm (-1) 0 drain_init);
    [reflexivity | vm_compute; reflexivity].
Defined.

(** X7: in a run in which no velocity of the solver is a NaN, no height
    recorded is above the one before it. *)
Theorem heights_never_rise_without_nan (m : Py.libm) (L : float) (fuel : nat) :
  (forall h,
     In h (H_INITIAL :: Euler.recorded_heights (simulate_drain_time m fuel L)) ->
     Py.gt h H_FINAL = true ->
     is_nan (Euler.solver_velocity m h L) = false) ->
  Euler.non_increasing H_INITIAL
    (Euler.recorded_heights (simulate_drain_time m fuel L)).
Proof.
  rewrite simulate_drain_time_run.
  destruct (recorded_heights_run m L fuel) as (n & -> & Hloop). intros Hv.
  apply (heights_non_increasing m L n 0); [vm_compute; reflexivity |].
  intros k Hk.
  apply Binary64Sign.not_negative_not_nan;
    [apply returned_velocity_not_negative |].
  apply Hv; [| apply Hloop; lia].
  destruct k as [| k]; [now left | right].
  apply in_map, in_seq. lia.
Qed.

Lemma heights_never_rise_without_nan_witness :
  (forall h,
     In h (H_INITIAL :: Euler.recorded_heights (simulate_drain_time Py.no_libm 3 1000)) ->
     Py.gt h H_FINAL = true ->
     is_nan (Euler.solver_velocity Py.no_libm h 1000) = false) /\
  Euler.non_increasing H_INITIAL
    (Euler.recorded_heights (simulate_drain_time Py.no_libm 3 1000)).
Proof.
  assert (Hv : forall h,
    In h (H_INITIAL :: Euler.recorded_heights (simulate_drain_time Py.no_libm 3 1000)) ->
    Py.gt h H_FINAL = true ->
    is_nan (Euler.solver_velocity Py.no_libm h 1000) = false).
  { intros h Hin _. rewrite three_steps_long_tube in Hin.
    cbn [Euler.recorded_heights ds_heights In] in Hin.
    destruct Hin as [<- | [<- | [<- | [<- | []]]]]; vm_compute; reflexivity. }
  split; [exact Hv |].
  apply (heights_never_rise_without_nan Py.no_libm 1000 3). exact Hv.
Defined.

(** X8: a run that returns has taken at least one step: the lists are not
    empty and of one length, the total time is the last time recorded and is
    above zero, and the last height recorded is not above [H_FINAL]. *)
Theorem returned_run_has_steps (m : Py.libm) (fuel : nat) (L : float)
  (total_time : float) (times heights : list float) :
  simulate_drain_time m fuel L = Returned (total_time, times, heights) ->
  times <> [] /\ heights <> [] /\
  List.length times = List.length heights /\
  last times 0 = total_time /\
  (0 <? total_time) = true /\
  Py.gt (last heights H_INITIAL) H_FINAL = false.
Proof.
  rewrite simulate_drain_time_run. unfold Euler.run.
  destruct (Euler.stop_step m L fuel) as [n |] eqn:Hstop; [| discriminate].
  apply stop_step_first in Hstop as (_ & Hlast & Hbefore).
  destruct n as [| n]; [discriminate Hlast |].
  rewrite trajectory_S, !map_app. cbn [map fst snd].
  intros Heq.
  assert (Ht : Euler.time (S n) = total_time) by congruence.
  assert (Hts : map fst (Euler.trajectory m L n) ++ [Euler.time (S n)] = times)
    by congruence.
  assert (Hhs : map snd (Euler.trajectory m L n) ++ [Euler.height m L (S n)] = heights)
    by congruence.
  clear Heq. subst total_time times heights.
  repeat split.
  - intros H. now apply app_eq_nil in H as [_ H].
  - intros H. now apply app_eq_nil in H as [_ H].
  - now rewrite !length_app, !length_map.
  - now rewrite last_last.
  - apply time_positive.
  - rewrite last_last. exact Hlast.
Qed.

Lemma returned_run_has_steps_witness :
  simulate_drain_time Py.no_libm 1 (-1) = Returned (0.01, [0.01], [nan]) /\
  [0.01] <> [] /\ [nan] <> [] /\
  List.length [0.01] = List.length [nan] /\
  last [0.01] 0 = 0.01 /\
  (0 <? 0.01) = true /\
  Py.gt (last [nan] H_INITIAL) H_FINAL = false.
Proof.
  assert (H : simulate_drain_time Py.no_libm 1 (-1) = Returned (0.01, [0.01], [nan]))
    by (vm_compute; reflexivity).
  split; [exact H |].
  exact (returned_run_has_steps Py.no_libm 1 (-1) 0.01 [0.01] [nan] H).
Defined.

Lemma H_FINAL_positive : Rounding.positive_finite H_FINAL.
Proof. eexists _, _. vm_compute. reflexivity. Qed.

(** X14: when the solver's velocity at the current height is zero, the height
    does not change and the loop of [simulate_drain_time] never ends: whatever
    the number of steps allowed, it is still looping at the same height. *)
Theorem zero_velocity_never_returns (m : Py.libm) (L : float) (fuel : nat) :
  forall st,
    Py.gt (ds_h st) H_FINAL = true ->
    (Euler.solver_velocity m (ds_h st) L =? 0) = true ->
    exists st',
      drain_loop m fuel L st = StillLooping st' /\ ds_h st' = ds_h st.
Proof.
  induction fuel as [| fuel IH]; intros st Hgt Hzero; cbn [drain_loop]; rewrite Hgt.
  - now exists st.
  - assert (Hh : ds_h (drain_body m L st) = ds_h st).
    { unfold drain_body. unfold Euler.solver_velocity in Hzero.
      destruct (calculate_velocity_and_friction m _ L _ _) as [v f].
      cbn [fst] in Hzero. cbn [ds_h].
      apply (Binary64Sign.sub_zero_r _ _ H_FINAL H_FINAL_positive Hgt).
      apply Binary64Sign.mul_zero_l; [exact DT_positive |].
      apply Binary64Sign.mul_zero_r; [exact area_ratio_positive | exact Hzero]. }
    destruct (IH (drain_body m L st)) as (st' & Hloop & Hst').
    + now rewrite Hh.
    + now rewrite Hh.
    + exists st'. split; [exact Hloop | now rewrite Hst'].
Qed.

Lemma zero_velocity_never_returns_witness :
  Py.gt (ds_h drain_init) H_FINAL = true /\
  (Euler.solver_velocity Py.no_libm (ds_h drain_init) 1e300 =? 0) = true /\
  exists st',
    simulate_drain_time Py.no_libm 1000 1e300 = StillLooping st' /\
    ds_h st' = H_INITIAL.
Proof.
  split; [reflexivity |]. split; [vm_compute; reflexivity |].
  apply (zero_velocity_never_returns Py.no_libm 1e300 1000 drain_init);
    [reflexivity | vm_compute; reflexivity].
Defined.

End SimulatorExtras.

(** * More on the simplified discharge model *)

Section DischargeExtras.
Import DischargeModel.

(** A step at which the number under the square root is below zero. *)
Lemma drain_loop_negative_radicand (m : Py.libm) (L h time : float) (fuel : nat) :
  Py.gt h 0.04 = true ->
  (v_actual_radicand m L h <? 0) = true ->
  drain_loop m (S fuel) L (h, time) = Returned (time + dt).
Proof.
  intros Hgt Hneg.
  assert (Hbody : drain_body m L (h, time) = (nan, time + dt)).
  { unfold drain_body, v_actual.
    rewrite (Binary64Sign.sqrt_negative _ Hneg).
    change (- (nan * area * dt) / (Py.pi * Py.square 0.5)) with nan.
    now rewrite Binary64Sign.add_nan_r. }
  cbn [drain_loop fst]. rewrite Hgt, Hbody. destruct fuel; reflexivity.
Qed.

(** X9: whenever the head loss is above the height, so that the number under
    the square root is below zero, the step makes the height a NaN and
    [drain_time] returns at the next test with the time of that step: the
    drain time is cut short without an error. *)
Theorem negative_radicand_ends_drain_time (m : Py.libm) (L h time : float)
  (fuel : nat) :
  Py.gt h 0.04 = true ->
  (v_actual_radicand m L h <? 0) = true ->
  is_nan (v_actual m L h) = true /\
  drain_loop m (S fuel) L (h, time) = Returned (time + dt).
Proof.
  intros Hgt Hneg. split; [| now apply drain_loop_negative_radicand].
  unfold v_actual. now rewrite (Binary64Sign.sqrt_negative _ Hneg).
Qed.

Lemma negative_radicand_ends_drain_time_witness :
  Py.gt H 0.04 = true /\
  (v_actual_radicand Py.no_libm 0.2 H <? 0) = true /\
  is_nan (v_actual Py.no_libm 0.2 H) = true /\
  drain_loop Py.no_libm 1 0.2 (H, 0) = Returned (0 + dt).
Proof.
  split; [reflexivity |]. split; [vm_compute; reflexivity |].
  apply (negative_radicand_ends_drain_time Py.no_libm 0.2 H 0 0);
    [reflexivity | vm_compute; reflexivity].
Defined.

End DischargeExtras.

(** * reynolds_numbers.py *)

Section ReynoldsExtras.
Import ReynoldsNumbers.

Lemma reynolds_constants_positive :
  Rounding.positive_finite rho /\ Rounding.positive_finite D /\
  Rounding.positive_finite mu.
Proof. repeat split; eexists _, _; vm_compute; reflexivity. Qed.

(** X10: the Reynolds number [calculate_reynolds] returns is never below zero:
    it is a NaN or at least zero, whatever the height, the tube length and the
    friction factor. *)
Theorem calculate_reynolds_is_never_negative (h L f : float) :
  (calculate_reynolds h L f <? 0) = false /\
  (calculate_reynolds h L f = nan \/ (0 <=? calculate_reynolds h L f) = true).
Proof.
  destruct reynolds_constants_positive as (Hrho & HD & Hmu).
  assert (H : (calculate_reynolds h L f <? 0) = false).
  { unfold calculate_reynolds.
    apply Binary64Sign.div_not_negative; [exact Hmu |].
    apply Binary64Sign.mul_not_negative_r; [exact HD |].
    apply Binary64Sign.mul_not_negative_l; [exact Hrho |].
    destruct (f =? 0); apply Binary64Sign.sqrt_not_negative. }
  split; [exact H |]. now apply Binary64Sign.not_negative_cases.
Qed.

Lemma results_from (heights : list float) (lengths : list float) :
  forall acc,
    fold_left
      (fun results L =>
         let Re_values := map (fun h => calculate_reynolds h L default_f) heights in
         results ++ [(L, Re_values)])
      lengths acc
    = acc ++ map (fun L => (L, map (fun h => calculate_reynolds h L default_f) heights))
               lengths.
Proof.
  induction lengths as [| L lengths IH]; intros acc; cbn [fold_left map].
  - now rewrite app_nil_r.
  - rewrite IH, <- app_assoc. reflexivity.
Qed.

(** X11: the table of the script has one entry per tube length, in order, and
    the tube length has no effect on it: the friction factor is left at its
    default 0, so every entry holds the same Reynolds numbers, those of the
    frictionless velocity [sqrt(2 g h)]. *)
Theorem results_ignore_the_length (lengths heights : list float) :
  results lengths heights =
    map (fun L => (L, map (fun h => (rho * sqrt (2 * g * h) * D) / mu) heights)) lengths.
Proof.
  unfold results. rewrite results_from. reflexivity.
Qed.

End ReynoldsExtras.

(** * The search of reynolds_numbers_w_iterative_darcy.py *)

Section SearchExtras.
Variable m : Py.libm.

Lemma search_step_appends (results : list DarcySearch.row) (L h : float) :
  DarcySearch.search_step m results L h = results ++ [DarcySearch.recorded m L h].
Proof.
  unfold DarcySearch.search_step, DarcySearch.recorded.
  destruct (DarcySearch.search_call m h L) as [[Re f] | msg]; reflexivity.
Qed.

Lemma inner_search_from (L : float) (heights : list float) :
  forall acc,
    fold_left (fun results h => DarcySearch.search_step m results L h) heights acc
      = acc ++ map (DarcySearch.recorded m L) heights.
Proof.
  induction heights as [| h heights IH]; intros acc; cbn [fold_left map].
  - now rewrite app_nil_r.
  - rewrite IH, search_step_appends, <- app_assoc. reflexivity.
Qed.

Lemma full_search_from (heights lengths : list float) :
  forall acc,
    fold_left
      (fun results L =>
         fold_left (fun results h => DarcySearch.search_step m results L h) heights results)
      lengths acc
    = acc ++ flat_map (fun L => map (DarcySearch.recorded m L) heights) lengths.
Proof.
  induction lengths as [| L lengths IH]; intros acc; cbn [fold_left flat_map].
  - now rewrite app_nil_r.
  - rewrite IH, inner_search_from, <- app_assoc. reflexivity.
Qed.

End SearchExtras.

Section SearchClaims.

(** X13: the search never fails and records exactly one row per pair of a tube
    length and a height, lengths outermost, in the order of the lists: the
    pair's Reynolds number and friction factor when the solver returns them,
    and two [None] when it raises. *)
Theorem full_search_records_every_pair (m : Py.libm) (lengths heights : list float) :
  DarcySearch.full_search m lengths heights =
    flat_map
      (fun L =>
         map (fun h =>
                match DarcySearch.search_call m h L with
                | Ok (Re, f) => (h, L, Some Re, Some f)
                | RuntimeError _ => (h, L, None, None)
                end)
             heights)
      lengths /\
  map (fun r : DarcySearch.row => let '(h, L, _, _) := r in (L, h))
      (DarcySearch.full_search m lengths heights)
    = list_prod lengths heights /\
  List.length (DarcySearch.full_search m lengths heights)
    = (List.length lengths * List.length heights)%nat.
Proof.
  assert (Hflat : DarcySearch.full_search m lengths heights =
    flat_map
      (fun L =>
         map (fun h =>
                match DarcySearch.search_call m h L with
                | Ok (Re, f) => (h, L, Some Re, Some f)
                | RuntimeError _ => (h, L, None, None)
                end)
             heights)
      lengths).
  { unfold DarcySearch.full_search. now rewrite full_search_from. }
  assert (Hpairs :
    map (fun r : DarcySearch.row => let '(h, L, _, _) := r in (L, h))
        (DarcySearch.full_search m lengths heights)
      = list_prod lengths heights).
  { rewrite Hflat. clear Hflat.
    induction lengths as [| L lengths IH]; [reflexivity |].
    cbn [flat_map list_prod]. rewrite map_app. f_equal; [| exact IH].
    rewrite map_map. apply map_ext. intros h.
    destruct (DarcySearch.search_call m h L) as [[Re f] | msg]; reflexivity. }
  split; [exact Hflat |]. split; [exact Hpairs |].
  rewrite <- (length_map (fun r : DarcySearch.row => let '(h, L, _, _) := r in (L, h))).
  rewrite Hpairs. apply length_prod.
Qed.

End SearchClaims.

(** * Zero height without a floor *)

Section ZeroHeight.
Variable m : Py.libm.

Lemma positive_finite_of_bounds (c : float) :
  (0 <? c) = true -> (c <? infinity) = true -> Rounding.positive_finite c.
Proof.
  rewrite !ltb_spec, Binary64.Prim2SF_zero, Binary64.Prim2SF_infinity.
  unfold Rounding.positive_finite.
  destruct (Prim2SF c) as [[] | [] | | [] mc ec]; cbn; try discriminate.
  intros _ _. now exists mc, ec.
Qed.

Lemma search_D_positive : Rounding.positive_finite DarcySearch.D.
Proof. eexists _, _. vm_compute. reflexivity. Qed.

(** With no water above the tube the velocity is zero, at the seed friction
    factor and at an infinite one. *)
Lemma darcy_velocity_zero_seed (L : float) :
  (0 <=? L) = true ->
  sqrt (2 * IterativeDarcy.g * 0 / (1 + 0.02 * L / DarcySearch.D + DarcySearch.K)) = 0.
Proof.
  intros HL. change (2 * IterativeDarcy.g * 0) with 0.
  rewrite Binary64.zero_div_pos; [reflexivity |].
  apply Binary64.add_pos; [| reflexivity].
  apply Binary64.add_pos; [reflexivity |].
  apply Binary64.div_nonneg; [exact search_D_positive |].
  apply Binary64.mul_nonneg_l; [eexists _, _; vm_compute; reflexivity | exact HL].
Qed.

Lemma darcy_velocity_zero_infinite (L : float) :
  Rounding.positive_finite L ->
  sqrt (2 * IterativeDarcy.g * 0 / (1 + infinity * L / DarcySearch.D + DarcySearch.K)) = 0.
Proof.
  intros HL. rewrite (Binary64Sign.infinity_mul_positive L HL). reflexivity.
Qed.

(** From an infinite friction factor the loop never passes its test. *)
Lemma darcy_loop_zero_height_infinite (L tol : float) (n : nat) :
  Rounding.positive_finite L ->
  IterativeDarcy.darcy_loop m n 0 L DarcySearch.epsilon DarcySearch.D DarcySearch.K
    DarcySearch.default_rho DarcySearch.default_mu tol infinity
    = RuntimeError IterativeDarcy.not_converged.
Proof.
  intros HL. induction n as [| n IH]; [reflexivity |].
  cbn [IterativeDarcy.darcy_loop].
  rewrite (darcy_velocity_zero_infinite L HL).
  change (IterativeDarcy.f_update m DarcySearch.epsilon DarcySearch.D
            (DarcySearch.default_rho * 0 * DarcySearch.D / DarcySearch.default_mu))
    with infinity.
  change (abs (infinity - infinity)) with nan.
  rewrite Binary64Sign.nan_not_below. exact IH.
Qed.

Lemma darcy_loop_zero_height (L tol : float) (n : nat) :
  Rounding.positive_finite L ->
  IterativeDarcy.darcy_loop m n 0 L DarcySearch.epsilon DarcySearch.D DarcySearch.K
    DarcySearch.default_rho DarcySearch.default_mu tol 0.02
    = RuntimeError IterativeDarcy.not_converged.
Proof.
  intros HL. destruct n as [| n]; [reflexivity |].
  cbn [IterativeDarcy.darcy_loop].
  rewrite darcy_velocity_zero_seed
    by (destruct HL as (mL & eL & HL);
        now rewrite leb_spec, Binary64.Prim2SF_zero, HL).
  change (IterativeDarcy.f_update m DarcySearch.epsilon DarcySearch.D
            (DarcySearch.default_rho * 0 * DarcySearch.D / DarcySearch.default_mu))
    with infinity.
  change (abs (infinity - 0.02)) with infinity.
  rewrite Binary64Sign.infinity_not_below.
  now apply darcy_loop_zero_height_infinite.
Qed.

End ZeroHeight.

Section ZeroHeightClaims.

(** X12: [iterative_darcy_reynolds] has no floor on the Reynolds number.  At
    zero height, with the diameter, the roughness and the loss coefficient of
    the script, the Reynolds number is 0 and the friction factor [64 / 0] is
    infinite and stays so: no iteration passes the test and the call raises,
    for every tube length that is positive and finite, every [max_iter] and
    every tolerance; the search of the script records two [None]. *)
Theorem zero_height_always_raises (m : Py.libm) (L : float) (max_iter : Z)
  (tol : float) :
  (0 <? L) = true -> (L <? infinity) = true ->
  IterativeDarcy.iterative_darcy_reynolds m 0 L
    DarcySearch.epsilon DarcySearch.D DarcySearch.K
    DarcySearch.default_rho DarcySearch.default_mu max_iter tol
    = RuntimeError IterativeDarcy.not_converged /\
  DarcySearch.search_step m [] L 0 = [(0, L, None, None)].
Proof.
  intros Hpos Hfin.
  pose proof (positive_finite_of_bounds L Hpos Hfin) as HL.
  split.
  - unfold IterativeDarcy.iterative_darcy_reynolds. now apply darcy_loop_zero_height.
  - unfold DarcySearch.search_step, DarcySearch.search_call,
      IterativeDarcy.iterative_darcy_reynolds.
    now rewrite darcy_loop_zero_height.
Qed.

Lemma zero_height_always_raises_witness :
  (0 <? 0.2) = true /\ (0.2 <? infinity) = true /\
  IterativeDarcy.iterative_darcy_reynolds Py.no_libm 0 0.2
    DarcySearch.epsilon DarcySearch.D DarcySearch.K
    DarcySearch.default_rho DarcySearch.default_mu 100 1e-6
    = RuntimeError IterativeDarcy.not_converged /\
  DarcySearch.search_step Py.no_libm [] 0.2 0 = [(0, 0.2, None, None)].
Proof.
  split; [reflexivity |]. split; [reflexivity |].
  apply (zero_height_always_raises Py.no_libm 0.2 100 1e-6); reflexivity.
Defined.

End ZeroHeightClaims.

(** * The sweep of the simplified discharge model *)

Section PrimMagnitude.
Import Rounding Binary64 Magnitude Binary64Magnitude.
Local Open Scope float_scope.

Lemma leb_at_least (c x : float) (mc : positive) (ec : Z) :
  Prim2SF c = S754_finite false mc ec -> (c <=? x) = true ->
  at_least false ec (Prim2SF x).
Proof. intros Hc. rewrite leb_spec, Hc. apply SFleb_at_least. Qed.

Lemma mul_at_least (x y : float) (sx sy : bool) (a b : Z) :
  at_least sx a (Prim2SF x) -> at_least sy b (Prim2SF y) ->
  (-1074 < a)%Z -> (-1074 < b)%Z -> (-1074 <= a + b)%Z ->
  at_least (xorb sx sy) (a + b + 52) (Prim2SF (x * y)).
Proof.
  intros Hx Hy Ha Hb Hab. rewrite mul_spec.
  pose proof (Prim2SF_valid x) as Vx. pose proof (Prim2SF_valid y) as Vy.
  destruct Hx as [Hx | (mx & ex & Hx & Hex)], Hy as [Hy | (my & ey & Hy & Hey)];
    rewrite Hx, Hy in *; try (now left).
  apply valid_finite in Vx as [Cx _]. apply valid_finite in Vy as [Cy _].
  eapply at_least_weaken; [apply SFmul_normal; try assumption; lia | lia].
Qed.

Lemma div_at_least (x d : float) (sx : bool) (a : Z) (md : positive) (ed : Z) :
  at_least sx a (Prim2SF x) -> Prim2SF d = S754_finite false md ed ->
  (-1074 < a)%Z -> (-1074 < ed)%Z -> (-1074 <= a - ed - 53)%Z ->
  at_least sx (a - ed - 53) (Prim2SF (x / d)).
Proof.
  intros Hx Hd Ha Hed Hdiff. rewrite div_spec.
  pose proof (Prim2SF_valid x) as Vx. pose proof (Prim2SF_valid d) as Vd.
  rewrite Hd in *. apply valid_finite in Vd as [Cd _].
  destruct Hx as [Hx | (mx & ex & Hx & Hex)]; rewrite Hx in *.
  - left. cbn. now rewrite xorb_false_r.
  - apply valid_finite in Vx as [Cx _].
    pose proof (SFdiv_normal sx false mx md ex ed Cx ltac:(lia) Cd Hed ltac:(lia)) as H.
    rewrite xorb_false_r in H.
    eapply at_least_weaken; [exact H | lia].
Qed.

Lemma sub_at_least (c y : float) (mc : positive) (ec b : Z) :
  Prim2SF c = S754_finite false mc ec -> at_least false b (Prim2SF y) ->
  (-1074 <= ec)%Z -> (ec + 2 <= b)%Z ->
  at_least true (b - 1) (Prim2SF (c - y)).
Proof.
  intros Hc Hy Hec Hgap. rewrite sub_spec.
  pose proof (Prim2SF_valid c) as Vc. pose proof (Prim2SF_valid y) as Vy.
  rewrite Hc in *. apply valid_finite in Vc as [Cc _].
  destruct Hy as [Hy | (my & ey & Hy & Hey)]; rewrite Hy in *.
  - now left.
  - apply valid_finite in Vy as [Cy Hy971].
    eapply at_least_weaken; [apply SFsub_small_large; try assumption; lia | lia].
Qed.

Lemma at_least_negative_ltb (x : float) (k : Z) :
  at_least true k (Prim2SF x) -> (x <? 0) = true.
Proof. rewrite ltb_spec, Prim2SF_zero. apply at_least_negative. Qed.

End PrimMagnitude.

Section DischargeSweepFacts.
Import DischargeModel.

(** At the initial height the head loss is above the height for every tube
    length from 20 cm on. *)
Lemma radicand_negative_from_20cm (m : Py.libm) (L : float) :
  (0.2 <=? L) = true -> (v_actual_radicand m L H <? 0) = true.
Proof.
  intros HL. unfold v_actual_radicand, head_loss.
  set (F0 := friction_factor m (reynolds_number (bernoulli_velocity H) diameter mu)).
  set (C0 := Py.square (bernoulli_velocity H) / (2 * g)).
  assert (HF : Magnitude.at_least false (-50) (Prim2SF F0)).
  { right. eexists _, _. split; [vm_compute; reflexivity | lia]. }
  assert (HC : Magnitude.at_least false (-56) (Prim2SF C0)).
  { right. eexists _, _. split; [vm_compute; reflexivity | lia]. }
  assert (HG : Magnitude.at_least false (-48) (Prim2SF (2 * g))).
  { right. eexists _, _. split; [vm_compute; reflexivity | lia]. }
  assert (H1 : Magnitude.at_least false (-55) (Prim2SF L)).
  { eapply (leb_at_least 0.2 L _ (-55)); [vm_compute; reflexivity | exact HL]. }
  assert (H2 : Magnitude.at_least false (-49) (Prim2SF (L / diameter))).
  { eapply (div_at_least L diameter false (-55) _ (-59));
      [exact H1 | vm_compute; reflexivity | lia | lia | lia]. }
  assert (H3 : Magnitude.at_least false (-47) (Prim2SF (F0 * (L / diameter)))).
  { apply (mul_at_least F0 (L / diameter) false false (-50) (-49));
      [exact HF | exact H2 | lia | lia | lia]. }
  assert (H4 : Magnitude.at_least false (-51) (Prim2SF (F0 * (L / diameter) * C0))).
  { apply (mul_at_least _ C0 false false (-47) (-56)); [exact H3 | exact HC | lia | lia | lia]. }
  assert (H5 : Magnitude.at_least true (-52)
                 (Prim2SF (H - F0 * (L / diameter) * C0))).
  { eapply (sub_at_least H _ _ (-56) (-51));
      [vm_compute; reflexivity | exact H4 | lia | lia]. }
  apply (at_least_negative_ltb _ (-48 + -52 + 52)).
  apply (mul_at_least (2 * g) _ false true (-48) (-52)); [exact HG | exact H5 | lia | lia | lia].
Qed.

(** X15: the sweep of the simplified model is degenerate.  For every tube
    length from 20 cm on, infinite included, the head loss at the initial
    height is above the height, the first step makes the height a NaN, and
    [drain_time] returns [0.01]: the drain times of the script are all the
    same. *)
Theorem discharge_sweep_is_degenerate (m : Py.libm) (fuel : nat)
  (tube_lengths : list float) :
  (forall L, In L tube_lengths -> (0.2 <=? L) = true) ->
  (forall L, In L tube_lengths -> drain_time m (S fuel) L = Returned 0.01) /\
  DischargeScript.times m (S fuel) tube_lengths
    = map (fun _ => Returned 0.01) tube_lengths.
Proof.
  intros Hall.
  assert (Hone : forall L, In L tube_lengths -> drain_time m (S fuel) L = Returned 0.01).
  { intros L HL. unfold drain_time.
    rewrite drain_loop_negative_radicand;
      [reflexivity | reflexivity | apply radicand_negative_from_20cm, Hall, HL]. }
  split; [exact Hone |].
  unfold DischargeScript.times. apply map_ext_in. exact Hone.
Qed.

Lemma discharge_sweep_is_degenerate_witness :
  (forall L, In L [0.2; 0.3; 0.4; 0.5; 0.6] -> (0.2 <=? L) = true) /\
  (forall L, In L [0.2; 0.3; 0.4; 0.5; 0.6] ->
     drain_time Py.no_libm 1 L = Returned 0.01) /\
  DischargeScript.times Py.no_libm 1 [0.2; 0.3; 0.4; 0.5; 0.6]
    = map (fun _ => Returned 0.01) [0.2; 0.3; 0.4; 0.5; 0.6].
Proof.
  assert (H : forall L, In L [0.2; 0.3; 0.4; 0.5; 0.6] -> (0.2 <=? L) = true).
  { intros L [<- | [<- | [<- | [<- | [<- | []]]]]]; reflexivity. }
  split; [exact H |].
  exact (discharge_sweep_is_degenerate Py.no_libm 0 [0.2; 0.3; 0.4; 0.5; 0.6] H).
Defined.

End DischargeSweepFacts.
